(** * Fediverse: the feed and followers pages, and the per-user key management

    A shallow embedding of
    - [fetchCollection] of [frontend/src/Pages/FollowersPage.js],
    - [handleLike] of the feed page,
    - the key-management code documented in [KEY_MANAGEMENT.md]
      (the [User] schema and its pre-save hook, [exports.actor],
      [sendSignedRequest], the inbox flow),
    with the properties of the federation trust layer stated over it. *)

From Stdlib Require Import ZArith String Ascii List Bool Lia DecimalString.
From stdpp Require Import base option list strings gmap.

Local Open Scope Z_scope.
Local Open Scope string_scope.

(** ** JavaScript values

    JSON documents as the browser and Node see them after [JSON.parse]:
    property order of an object is kept, numbers are restricted to
    integers (only their truthiness and identity matter below). *)

#[warnings="-register-all"]
Inductive value : Type :=
  | VUndefined
  | VNull
  | VBool (b : bool)
  | VNum (n : Z)
  | VStr (s : string)
  | VArr (xs : list value)
  | VObj (fields : list (string * value)).

(** A promise or a try block either completes or throws. *)
Inductive result (A : Type) : Type :=
  | Ok (a : A)
  | Throw (e : string).
Arguments Ok {A} a.
Arguments Throw {A} e.

#[global] Instance result_ret : MRet result := fun _ a => Ok a.
#[global] Instance result_bind : MBind result := fun _ _ k r =>
  match r with
  | Ok a => k a
  | Throw e => Throw e
  end.

Module JS.

(** [typeof v] *)
Definition typeof (v : value) : string :=
  match v with
  | VUndefined => "undefined"
  | VNull => "object"
  | VBool _ => "boolean"
  | VNum _ => "number"
  | VStr _ => "string"
  | VArr _ | VObj _ => "object"
  end.

(** ToBoolean: [undefined], [null], [false], [0] and the empty string are
    falsy, everything else (every array and object too) is truthy. *)
Definition truthy (v : value) : bool :=
  match v with
  | VUndefined | VNull => false
  | VBool b => b
  | VNum n => negb (Z.eqb n 0)
  | VStr s => negb (String.eqb s "")
  | VArr _ | VObj _ => true
  end.

(** [a || b] *)
Definition or (a b : value) : value := if truthy a then a else b.

Fixpoint lookup_field (k : string) (fields : list (string * value)) : value :=
  match fields with
  | [] => VUndefined
  | (k', v) :: rest => if String.eqb k k' then v else lookup_field k rest
  end.

(** [v.k] for a value that is neither [null] nor [undefined], and a name
    [k] that no prototype defines ([orderedItems], [first], [items],
    [totalItems], [id], [url], [href]): an own property of an object, and
    [undefined] on arrays and primitives. *)
Definition prop (v : value) (k : string) : value :=
  match v with
  | VObj fields => lookup_field k fields
  | _ => VUndefined
  end.

Definition nullish (v : value) : bool :=
  match v with
  | VUndefined | VNull => true
  | _ => false
  end.

(** [v.k]: reading a property of [null] or [undefined] throws. *)
Definition get (v : value) (k : string) : result value :=
  if nullish v then Throw "TypeError: Cannot read properties"
  else Ok (prop v k).

(** [v?.k] *)
Definition get_opt (v : value) (k : string) : value :=
  if nullish v then VUndefined else prop v k.

(** [v !== null] *)
Definition not_null (v : value) : bool :=
  match v with
  | VNull => false
  | _ => true
  end.

Definition is_string (v : value) : bool :=
  match v with
  | VStr _ => true
  | _ => false
  end.

End JS.

(** ** FollowersPage.js: [fetchCollection] *)

Module FollowersPage.
Import JS.

(** What [axios.get] settles to: a rejection (network error, timeout,
    status outside 2xx) or a response whose [data] is the parsed body. *)
Inductive axios_get :=
  | Rejected (err : string)
  | Resolved (data : value).

Record collection := Collection { items : list value; total : value }.

Definition normalizeItem (item : value) : value :=
  if String.eqb (typeof item) "string" then item
  else if String.eqb (typeof item) "object" && not_null item then
    or (or (or (prop item "id") (prop item "url")) (prop item "href")) VNull
  else VNull.

(** [items.map(normalizeItem).filter((url) => url !== null)]; a value that
    is not an array has no callable [map]. *)
Definition normalize_all (items : value) : result (list value) :=
  match items with
  | VArr xs => Ok (List.filter not_null (List.map normalizeItem xs))
  | _ => Throw "TypeError: items.map is not a function"
  end.

(** The body of the [try] block. *)
Definition fetchCollection_try (res : axios_get) : result collection :=
  match res with
  | Rejected err => Throw err
  | Resolved data =>
      orderedItems ← get data "orderedItems";
      '(items, total) ←
        (if truthy orderedItems then
           totalItems ← get data "totalItems";
           Ok (orderedItems, or totalItems (VNum 0))
         else
           first ← get data "first";
           if truthy (get_opt first "orderedItems") then
             Ok (prop first "orderedItems",
                 or (or (prop first "totalItems") (prop data "totalItems")) (VNum 0))
           else
             if truthy (prop data "items") then
               Ok (prop data "items", or (prop data "totalItems") (VNum 0))
             else
               match data with
               | VArr xs => Ok (data, VNum (Z.of_nat (List.length xs)))
               | _ => Ok (VArr [], VNum 0)
               end);
      normalizedItems ← normalize_all items;
      Ok (Collection normalizedItems total)
  end.

(** [try { ... } catch (err) { console.error(...); return { items: [], total: 0 } }] *)
Definition fetchCollection (res : axios_get) : collection :=
  match fetchCollection_try res with
  | Ok c => c
  | Throw _ => Collection [] (VNum 0)
  end.

(** A followers collection whose only item is an actor object that has
    no [id] and gives its [url] as a Link object. *)
Definition link_collection : value :=
  VObj [ ("type", VStr "OrderedCollection");
         ("totalItems", VNum 1);
         ("orderedItems",
          VArr [ VObj [ ("type", VStr "Person");
                        ("url", VObj [ ("type", VStr "Link");
                                       ("href", VStr "https://remote.example/@bob") ]) ] ]) ].

End FollowersPage.

(** ** The feed page: [handleLike] *)

Module FeedPage.

(** A post of the feed: its [_id], its [likes] (absent on some posts) and
    every other property ([caption], [author], [createdAt], ...). *)
Record post := Post {
  _id : string;
  likes : option (list string);
  other : list (string * value)
}.

(** The component state that [handleLike] and [fetchFeed] read and set. *)
Record state := State {
  feed : list post;
  token : option string;
  userId : string;
  loading : bool;
  error : option string
}.

(** [!token], [!postId]: [null], [undefined] and [""] are falsy. *)
Definition truthy_str (s : string) : bool := negb (String.eqb s "").
Definition truthy_opt (o : option string) : bool :=
  match o with
  | Some s => truthy_str s
  | None => false
  end.

(** [likesArray.includes(userId)] *)
Definition includes (x : string) (l : list string) : bool :=
  existsb (String.eqb x) l.

(** The updater passed to [setFeed]. *)
Definition toggle_like (userId postId : string) (p : post) : post :=
  if String.eqb (_id p) postId then
    let likesArray := default [] (likes p) in
    let isLiked := includes userId likesArray in
    {| _id := _id p;
       likes := Some (if isLiked
                      then List.filter (fun id => negb (String.eqb id userId)) likesArray
                      else (likesArray ++ [userId])%list);
       other := other p |}
  else p.

(** The request [axios({ method, url, headers })] puts on the wire. *)
Record like_request := LikeRequest { method : string; url : string }.

(** What the server answers during one call: whether the like request
    succeeds, and what [GET /api/posts/feed] returns if it is issued
    ([None]: the request fails; [Some None]: a falsy [res.data]). *)
Record server := Server {
  like_ok : bool;
  feed_reply : option (option (list post))
}.

Definition fetchFeed (srv : server) (st : state) : state :=
  let st := {| feed := feed st; token := token st; userId := userId st;
               loading := true; error := error st |} in
  let st :=
    match feed_reply srv with
    | Some data =>
        {| feed := default [] data; token := token st; userId := userId st;
           loading := loading st; error := None |}
    | None =>
        {| feed := feed st; token := token st; userId := userId st;
           loading := loading st;
           error := Some "Failed to load feed. Please try again." |}
    end in
  {| feed := feed st; token := token st; userId := userId st;
     loading := false; error := error st |}.

Definition handleLike (api : string) (srv : server) (st : state) (postId : string)
  : state * list like_request :=
  if negb (truthy_opt (token st)) || negb (truthy_str postId) then (st, [])
  else
    let st' := {| feed := List.map (toggle_like (userId st) postId) (feed st);
                  token := token st; userId := userId st;
                  loading := loading st; error := error st |} in
    let targetPost := List.find (fun p => String.eqb (_id p) postId) (feed st) in
    let currentLikes := default [] (targetPost ≫= likes) in
    let method := if includes (userId st) currentLikes then "delete" else "post" in
    let req := LikeRequest method (api +:+ "/api/posts/" +:+ postId +:+ "/like") in
    if like_ok srv then (st', [req])
    else (fetchFeed srv st', [req]).

(** What the like toggle promises for the post [p] it is aimed at: [userId]
    leaves the likes if it was among them and joins them at the end if it
    was not; nothing else of the post changes. *)
Definition like_toggled (userId : string) (p p' : post) : Prop :=
  _id p' = _id p /\ other p' = other p /\
  let l := default [] (likes p) in
  likes p' = Some (if includes userId l
                   then List.remove string_dec userId l
                   else (l ++ [userId])%list).

(** The frame-and-toggle property of one call of [handleLike]. *)
Definition toggles_only (api : string) (srv : server) (st : state) (postId : string) : Prop :=
  Forall2
    (fun p p' => if String.eqb (_id p) postId then like_toggled (userId st) p p' else p' = p)
    (feed st) (feed (fst (handleLike api srv st postId))).

Definition sample_feed : list post :=
  [ Post "p1" (Some ["bob"]) [("caption", VStr "hello")];
    Post "p2" None [("caption", VStr "world")] ].

Definition signed_out : state := State sample_feed None "" false None.
Definition signed_in : state := State sample_feed (Some "jwt") "alice" false None.

End FeedPage.

(** ** Strings: lines, separators, letter case *)

Module Str.

(** The line feed of a template literal that spans lines. *)
Definition nl : string := String "010"%char "".

(** The double quote. *)
Definition dq : string := String "034"%char "".

Definition contains_char (c : ascii) (s : string) : bool :=
  existsb (Ascii.eqb c) (list_ascii_of_string s).

(** [s.split(c)] for a one-character separator. *)
Fixpoint split_on (c : ascii) (s : string) : list string :=
  match s with
  | EmptyString => [""]
  | String x r =>
      if Ascii.eqb x c then "" :: split_on c r
      else match split_on c r with
           | h :: t => String x h :: t
           | [] => [String x ""]
           end
  end.

(** [parts.join(sep)] *)
Fixpoint join (sep : string) (parts : list string) : string :=
  match parts with
  | [] => ""
  | [p] => p
  | p :: rest => p +:+ sep +:+ join sep rest
  end.

(** The text before the first [c] and the text after it. *)
Fixpoint cut_at (c : ascii) (s : string) : option (string * string) :=
  match s with
  | EmptyString => None
  | String x r =>
      if Ascii.eqb x c then Some ("", r)
      else '(a, b) ← cut_at c r; Some (String x a, b)
  end.

(** [s] without its last character, which has to be [c]. *)
Fixpoint drop_last (c : ascii) (s : string) : option string :=
  match s with
  | EmptyString => None
  | String x EmptyString => if Ascii.eqb x c then Some "" else None
  | String x r => String x <$> drop_last c r
  end.

(** [s] without the suffix [suf], when it ends with it. *)
Fixpoint strip_suffix (suf s : string) : option string :=
  if String.eqb s suf then Some ""
  else match s with
       | EmptyString => None
       | String x r => String x <$> strip_suffix suf r
       end.

Definition lower_char (c : ascii) : ascii :=
  let n := nat_of_ascii c in
  if (65 <=? n)%nat && (n <=? 90)%nat then ascii_of_nat (n + 32) else c.

(** [s.toLowerCase()] on ASCII text. *)
Fixpoint lower (s : string) : string :=
  match s with
  | EmptyString => ""
  | String x r => String (lower_char x) (lower r)
  end.

End Str.

(** ** KEY_MANAGEMENT.md: the library functions the backend calls

    Node's [crypto], [JSON.stringify], [URL] and [Date] are not part of the
    repository; the code is modelled over any implementation of them. *)

Record URL := mkURL { host : string; pathname : string }.

Record encoding := Encoding { enc_type : string; enc_format : string }.

Record keygen_options := KeygenOptions {
  modulusLength : Z;
  publicKeyEncoding : encoding;
  privateKeyEncoding : encoding
}.

Class Primitives := {
  (** [crypto.generateKeyPairSync(type, options)], with the random draw it
      consumes; returns [(publicKey, privateKey)]. *)
  generateKeyPairSync : string -> keygen_options -> Z -> string * string;
  (** [crypto.createHash("sha256").update(s).digest("base64")] *)
  sha256_base64 : string -> string;
  (** [crypto.createSign("rsa-sha256")] ... [sign(key).toString("base64")] *)
  rsa_sha256_sign : string -> string -> string;
  (** [crypto.createVerify("rsa-sha256")] ... [verify(key, sig, "base64")] *)
  rsa_sha256_verify : string -> string -> string -> bool;
  (** [JSON.stringify] *)
  JSON_stringify : value -> string;
  (** [new URL(s)]; [None] when the constructor throws. *)
  parseURL : string -> option URL;
  (** [new Date(ms).toUTCString()] *)
  toUTCString : Z -> string;
  (** [Date.parse], in milliseconds; [None] for [NaN]. *)
  Date_parse : string -> option Z
}.

Module KeyManagement.
Import Str.

(** *** backend/models/User.js *)

Record User := mkUser {
  username : string;
  password : option string;
  email : string;
  actorUrl : string;
  publicKey : option string;
  privateKey : option string;
  followers : list string;
  following : list string
}.

(** The paths the schema declares with [select: false]. *)
Definition select_false : list string := ["password"; "privateKey"].

(** [!x] on a string field: [undefined] and [""] are falsy. *)
Definition truthy (o : option string) : bool :=
  match o with
  | Some s => negb (String.eqb s "")
  | None => false
  end.

(** A query under construction: [User.findOne({ username })], possibly
    followed by [.select("+path")]. *)
Record query := Query { filter_username : string; selected : list string }.

Definition findOne (username : string) : query := Query username [].

Definition select (path : string) (q : query) : query :=
  Query (filter_username q) (path :: selected q).

(** Whether a path is returned: always, unless the schema hides it and
    the query did not ask for it with [+path]. *)
Definition returned (q : query) (path : string) : bool :=
  negb (existsb (String.eqb path) select_false)
  || existsb (String.eqb ("+" +:+ path)) (selected q).

Definition project (q : query) (u : User) : User :=
  {| username := username u;
     password := if returned q "password" then password u else None;
     email := email u;
     actorUrl := actorUrl u;
     publicKey := publicKey u;
     privateKey := if returned q "privateKey" then privateKey u else None;
     followers := followers u;
     following := following u |}.

(** [await query]: the collection is keyed by the unique [username]. *)
Definition exec (db : gmap string User) (q : query) : option User :=
  project q <$> db !! filter_username q.

Definition rsa_options : keygen_options :=
  {| modulusLength := 2048;
     publicKeyEncoding := Encoding "spki" "pem";
     privateKeyEncoding := Encoding "pkcs8" "pem" |}.

Definition set_keys (pub priv : string) (u : User) : User :=
  {| username := username u; password := password u; email := email u;
     actorUrl := actorUrl u;
     publicKey := Some pub; privateKey := Some priv;
     followers := followers u; following := following u |}.

Section Backend.
Context `{Primitives}.

(** The key-generation step of [userSchema.pre("save")], run on the
    document [this] with the random draw [rnd] (the password hashing
    that precedes it is elided in the source). *)
Definition pre_save (rnd : Z) (this : User) : User :=
  if negb (truthy (publicKey this)) || negb (truthy (privateKey this)) then
    let '(publicKey, privateKey) := generateKeyPairSync "rsa" rsa_options rnd in
    set_keys publicKey privateKey this
  else this.

(** [doc.save()]: the hook runs, then the paths the document carries are
    written; a path the query left out ([select: false]) and nobody set
    keeps its stored value. A document that is not stored yet is inserted. *)
Definition written (stored doc : User) : User :=
  {| username := username doc;
     password := match password doc with Some p => Some p | None => password stored end;
     email := email doc;
     actorUrl := actorUrl doc;
     publicKey := match publicKey doc with Some k => Some k | None => publicKey stored end;
     privateKey := match privateKey doc with Some k => Some k | None => privateKey stored end;
     followers := followers doc;
     following := following doc |}.

Definition save (rnd : Z) (doc : User) (db : gmap string User) : gmap string User :=
  let doc' := pre_save rnd doc in
  match db !! username doc with
  | Some stored => <[username doc := written stored doc']> db
  | None => <[username doc := doc']> db
  end.

(** Troubleshooting, "Public key not configured":
    [const user = await User.findOne({ username }); await user.save();] *)
Definition resave (rnd : Z) (name : string) (db : gmap string User) : gmap string User :=
  match exec db (findOne name) with
  | Some user => save rnd user db
  | None => db
  end.

(** The body of the loop of [migrateKeys] (and of the troubleshooting step
    "Private key not found for user") for one user: read with
    [+privateKey], generate when a key is missing, save. *)
Definition migrate_user (rnd rnd' : Z) (name : string) (db : gmap string User)
  : gmap string User :=
  match exec db (select "+privateKey" (findOne name)) with
  | Some user =>
      if negb (truthy (publicKey user)) || negb (truthy (privateKey user)) then
        let '(publicKey, privateKey) := generateKeyPairSync "rsa" rsa_options rnd in
        save rnd' (set_keys publicKey privateKey user) db
      else db
  | None => db
  end.

(** *** backend/controllers/activityPubController.js *)

Definition opt_str (o : option string) : value :=
  match o with
  | Some s => VStr s
  | None => VUndefined
  end.

(** [exports.actor]: the document passed to [res.json]. *)
Definition actor (BASE_URL : string) (db : gmap string User) (username : string)
  : result value :=
  match exec db (findOne username) with
  | None => Throw "TypeError: Cannot read properties of null (reading 'publicKey')"
  | Some user =>
      Ok (VObj [
        ("@context", VArr [VStr "https://www.w3.org/ns/activitystreams"]);
        ("id", VStr (BASE_URL +:+ "/users/" +:+ username));
        ("type", VStr "Person");
        ("preferredUsername", VStr username);
        ("publicKey", VObj [
           ("id", VStr (BASE_URL +:+ "/users/" +:+ username +:+ "#main-key"));
           ("owner", VStr (BASE_URL +:+ "/users/" +:+ username));
           ("publicKeyPem", opt_str (publicKey user)) ]) ])
  end.

(** *** backend/utils/sendSignedRequest.js *)

Record http_request := HttpRequest {
  http_method : string;
  http_url : string;
  http_headers : list (string * string);
  http_body : string
}.

(** The template literal [signatureHeaders]. *)
Definition signatureHeaders (pathname host date digest : string) : string :=
  "(request-target): post " +:+ pathname +:+ nl +:+
  "host: " +:+ host +:+ nl +:+
  "date: " +:+ date +:+ nl +:+
  "digest: SHA-256=" +:+ digest.

(** Modelled from the spec: one [name="value"] parameter of the Signature
    header. *)
Definition param (name v : string) : string :=
  name +:+ "=" +:+ dq +:+ v +:+ dq.

(** Modelled from the spec: the value of the Signature header that
    [buildHeader] produces,
    keyId="<id>",algorithm="rsa-sha256",headers="<space-joined names>",signature="<sig>". *)
Definition buildHeader (keyId : string) (headerNames : list string)
    (signatureBase64 : string) : string :=
  join ","
    [ param "keyId" keyId;
      param "algorithm" "rsa-sha256";
      param "headers" (join " " headerNames);
      param "signature" signatureBase64 ].

(** Modelled from the spec: the names of the signed headers, in the order
    of the lines of the signer's template [signatureHeaders]. *)
Definition signed_header_names : list string :=
  ["(request-target)"; "host"; "date"; "digest"].

(** Modelled from the spec: the key identifier named in the Signature
    header, which is the [publicKey.id] that [exports.actor] publishes for
    [username]. *)
Definition keyId_of (BASE_URL username : string) : string :=
  BASE_URL +:+ "/users/" +:+ username +:+ "#main-key".

(** Modelled from the spec: the [headers] object handed to [axios.post],
    which the source uses but does not build. It carries [Host], [Date],
    [Digest: SHA-256=<digest>] and the [Signature] header. *)
Definition request_headers (BASE_URL username : string) (u : URL)
    (date digest signature : string) : list (string * string) :=
  [ ("Host", host u);
    ("Date", date);
    ("Digest", "SHA-256=" +:+ digest);
    ("Signature",
     buildHeader (keyId_of BASE_URL username) signed_header_names signature) ].

(** Steps 1 to 3 of [sendSignedRequest], run at time [now] (milliseconds),
    and the request that step 4 hands to [axios.post]: axios serialises the
    activity object with [JSON.stringify]. *)
Definition signed_request (BASE_URL : string) (db : gmap string User) (now : Z)
    (actorUsername inboxUrl : string) (activity : list (string * value))
  : result http_request :=
  match exec db (select "+privateKey" (findOne actorUsername)) ≫= privateKey with
  | None => Throw ("Private key not found for user: " +:+ actorUsername)
  | Some key =>
      if String.eqb key "" then
        Throw ("Private key not found for user: " +:+ actorUsername)
      else
        let date := toUTCString now in
        let digest := sha256_base64 (JSON_stringify (VObj activity)) in
        match parseURL inboxUrl with
        | None => Throw "TypeError: Invalid URL"
        | Some u =>
            let signature :=
              rsa_sha256_sign key (signatureHeaders (pathname u) (host u) date digest) in
            Ok {| http_method := "POST";
                  http_url := inboxUrl;
                  http_headers := request_headers BASE_URL actorUsername u date digest signature;
                  http_body := JSON_stringify (VObj activity) |}
        end
  end.


(** What the remote end does with one request: the connection fails (it
    is refused, the name does not resolve, the socket times out; the source
    sets no timeout of its own) with the message of Node's error, or a
    response arrives, with its status and the [Location] header it may
    carry. *)
Inductive answer :=
  | Unreachable (message : string)
  | Answered (code : Z) (location : option string).

(** The status code as axios prints it in an error message. *)
Definition status_text (code : Z) : string :=
  NilZero.string_of_uint (N.to_uint (Z.to_N code)).

(** [validateStatus], which the source leaves at its default:
    [status >= 200 && status < 300]. *)
Definition is_2xx (code : Z) : bool := (200 <=? code)%Z && (code <? 300)%Z.

(** The redirect that a response asks for: a 3xx status together with a
    [Location] header. *)
Definition redirect_of (a : answer) : option (Z * string) :=
  match a with
  | Answered code (Some location) =>
      if (300 <=? code)%Z && (code <? 400)%Z then Some (code, location) else None
  | _ => None
  end.

(** How axios settles the call on an answer that it does not follow. *)
Definition settle (a : answer) : result unit :=
  match a with
  | Unreachable message => Throw message
  | Answered code _ =>
      if is_2xx code then Ok tt
      else Throw ("Request failed with status code " +:+ status_text code)
  end.

(** axios on Node sends its requests through follow-redirects, unless
    [maxRedirects] is 0. The source leaves [maxRedirects] at the default of
    the installed axios; [redirected code location req] is the request
    that follow-redirects issues after [req] was answered with the status
    [code] and the header [Location: location]. *)
Variable maxRedirects : nat.
Variable redirected : Z -> string -> http_request -> http_request.

(** One request and the redirects that follow it, [redirects_left] at
    most: the result of the call and the requests put on the wire. *)
Fixpoint axios_request (redirects_left : nat) (net : http_request -> answer)
    (req : http_request) : result unit * list http_request :=
  match redirect_of (net req) with
  | Some (code, location) =>
      match redirects_left with
      | O => (Throw "Maximum number of redirects exceeded", [req])
      | S n =>
          let run := axios_request n net (redirected code location req) in
          (fst run, req :: snd run)
      end
  | None => (settle (net req), [req])
  end.

(** [await axios.post(inboxUrl, activity, { headers })]: [net] is what the
    remote end answers to each request. With [maxRedirects] at 0 axios
    uses Node's plain transport, and a 3xx is a response like any other. *)
Definition axios_post (net : http_request -> answer) (req : http_request)
  : result unit * list http_request :=
  match maxRedirects with
  | O => (settle (net req), [req])
  | S _ => axios_request maxRedirects net req
  end.

(** [sendSignedRequest]: its result, and the requests it put on the wire. *)
Definition sendSignedRequest (BASE_URL : string) (db : gmap string User) (now : Z)
    (actorUsername inboxUrl : string) (activity : list (string * value))
    (net : http_request -> answer) : result unit * list http_request :=
  match signed_request BASE_URL db now actorUsername inboxUrl activity with
  | Throw e => (Throw e, [])
  | Ok req => axios_post net req
  end.


(** *** The inbox flow

    [/users/:username/inbox] as the documentation describes what it does
    today: receive the Follow activity, verify nothing (a TODO), add the
    remote actor to the followers, send an Accept signed with the local
    user's key. *)

Record inbound_request := Inbound {
  in_method : string;
  in_path : string;
  in_headers : list (string * string);
  in_body : string
}.

Record Follow := mkFollow { follow_actor : string; follow_object : string }.

Record outgoing := Outgoing {
  out_sender : string;
  out_recipient : string;
  out_type : string
}.

Definition add_follower (who : string) (u : User) : User :=
  {| username := username u; password := password u; email := email u;
     actorUrl := actorUrl u; publicKey := publicKey u; privateKey := privateKey u;
     followers := (followers u ++ [who])%list; following := following u |}.

Definition inbox (db : gmap string User) (username : string)
    (req : inbound_request) (activity : Follow)
  : gmap string User * list outgoing :=
  (alter (add_follower (follow_actor activity)) username db,
   [Outgoing username (follow_actor activity) "Accept"]).

End Backend.
End KeyManagement.

(** ** The verification side and the delivery policy, as specified

    The repository signs outgoing requests only. The definitions of this
    module follow the specification, to compare the code with. *)

Module Spec.
Import Str KeyManagement.

Inductive verify_error :=
  | MalformedSignature
  | StaleRequest
  | DigestMismatch
  | ResolutionError
  | InvalidSignature.

Inductive verdict :=
  | Verified (actorId : string)
  | Rejected (e : verify_error).

Record SignatureHeader := mkSignatureHeader {
  keyId : string;
  algorithm : string;
  signedHeaders : list string;
  signatureBase64 : string
}.

(** Header names are case-insensitive. *)
Definition header (name : string) (hs : list (string * string)) : option string :=
  snd <$> List.find (fun nv => String.eqb (lower (fst nv)) (lower name)) hs.

(** One [name="value"] parameter of the Signature header. *)
Definition parse_param (part : string) : option (string * string) :=
  '(name, quoted) ← cut_at "="%char part;
  match quoted with
  | String q rest =>
      if Ascii.eqb q "034"%char then
        v ← drop_last "034"%char rest; Some (name, v)
      else None
  | EmptyString => None
  end.

(** Modelled from the spec: step 1 of the SignatureVerifier, the parser of
    the Signature header into [{keyId, algorithm, headers, signature}],
    which the repository does not have. It reads the four parameters in
    the order in which [buildHeader] writes them. The values of
    [algorithm], [headers] and [signature] (a name, header names, base64
    text) hold no comma, so the last three commas of the header separate
    the parameters; the value of [keyId], which is free text, is all that
    stands between the first quote and the quote before these. *)
Definition parse_signature (s : string) : option SignatureHeader :=
  let parts := split_on ","%char s in
  let n := (List.length parts - 3)%nat in
  match List.skipn n parts with
  | [pa; ph; psg] =>
      '(kn, k) ← parse_param (join "," (List.firstn n parts));
      '(an, a) ← parse_param pa;
      '(hn, h) ← parse_param ph;
      '(sn, sg) ← parse_param psg;
      if String.eqb kn "keyId" && String.eqb an "algorithm"
         && String.eqb hn "headers" && String.eqb sn "signature"
      then Some (mkSignatureHeader k a (split_on " "%char h) sg)
      else None
  | _ => None
  end.

Section Verifier.
Context `{Primitives}.

(** Modelled from the spec: [canonicalString(method, path, host, date,
    digest)], one [name: value] line per header in the fixed order
    (request-target), host, date, digest; the method is written in lower
    case, as HTTP Signatures require. The repository has the signer's
    template only. *)
Definition canonicalString (method path host date digest : string) : string :=
  join nl
    (List.map (fun nv => fst nv +:+ ": " +:+ snd nv)
       [ ("(request-target)", lower method +:+ " " +:+ path);
         ("host", host);
         ("date", date);
         ("digest", "SHA-256=" +:+ digest) ]).

(** Five minutes, in milliseconds. *)
Definition max_skew : Z := 5 * 60 * 1000.

(** Modelled from the spec: the SignatureVerifier, steps 1 to 7, which the
    repository does not implement. [resolve] is the ActorResolver and [now]
    the current time in milliseconds. A request that lacks one of the
    headers it has to sign is malformed, and a [Date] that does not parse
    is stale. *)
Definition verify (resolve : string -> option string) (now : Z)
    (req : inbound_request) : verdict :=
  match header "Signature" (in_headers req) ≫= parse_signature with
  | None => Rejected MalformedSignature
  | Some sig =>
      if negb (forallb (fun h => existsb (String.eqb h) (signedHeaders sig))
                 signed_header_names)
      then Rejected MalformedSignature
      else
        match header "Host" (in_headers req),
              header "Date" (in_headers req),
              header "Digest" (in_headers req) with
        | Some hostH, Some dateH, Some digestH =>
            match Date_parse dateH with
            | None => Rejected StaleRequest
            | Some t =>
                if (Z.abs (now - t) >? max_skew)%Z then Rejected StaleRequest
                else
                  let digest := sha256_base64 (in_body req) in
                  if negb (String.eqb ("SHA-256=" +:+ digest) digestH)
                  then Rejected DigestMismatch
                  else
                    match strip_suffix "#main-key" (keyId sig) with
                    | None => Rejected ResolutionError
                    | Some actorUri =>
                        match resolve actorUri with
                        | None => Rejected ResolutionError
                        | Some pem =>
                            if rsa_sha256_verify pem
                                 (canonicalString (in_method req) (in_path req)
                                    hostH dateH digest)
                                 (signatureBase64 sig)
                            then Verified actorUri
                            else Rejected InvalidSignature
                        end
                    end
            end
        | _, _, _ => Rejected MalformedSignature
        end
  end.

(** How a request sent by [sendSignedRequest] arrives at the inbox. *)
Definition receive (r : http_request) : option inbound_request :=
  u ← parseURL (http_url r);
  Some (Inbound (http_method r) (pathname u) (http_headers r) (http_body r)).

End Verifier.

(** *** DeliveryQueue *)






End Spec.

(** ** A small implementation of the library functions

    Enough to run the model on concrete requests: keys are a tag and a
    serial number, a signature names the signer's serial number and a
    checksum of the text, times print as decimal seconds. *)

Module Toy.
Import Str.

Definition dec (n : Z) : string := NilZero.string_of_uint (N.to_uint (Z.to_N n)).

Definition undec (s : string) : option Z :=
  (fun d => Z.of_N (N.of_uint d)) <$> NilZero.uint_of_string s.

Definition checksum (s : string) : Z :=
  fold_right (fun c acc => (Z.of_nat (nat_of_ascii c) + 31 * acc) mod 65521)%Z 7%Z
    (list_ascii_of_string s).

Definition keygen (type : string) (o : keygen_options) (rnd : Z) : string * string :=
  ("PUB" +:+ dec rnd, "KEY" +:+ dec rnd).

Definition serial (pem : string) : string := String.substring 3 (String.length pem - 3) pem.

Definition sign (key text : string) : string :=
  serial key +:+ "." +:+ dec (checksum text).

Definition check (pem text signature : string) : bool :=
  String.eqb signature (serial pem +:+ "." +:+ dec (checksum text)).

Fixpoint stringify (v : value) : string :=
  match v with
  | VUndefined => "undefined"
  | VNull => "null"
  | VBool b => if b then "true" else "false"
  | VNum n => if (n <? 0)%Z then "-" +:+ dec (- n) else dec n
  | VStr s => dq +:+ s +:+ dq
  | VArr xs => "[" +:+ join "," (List.map stringify xs) +:+ "]"
  | VObj fields =>
      "{" +:+ join "," (List.map (fun kv => dq +:+ fst kv +:+ dq +:+ ":" +:+ stringify (snd kv)) fields) +:+ "}"
  end.

(** [scheme://host/path] *)
Definition url (s : string) : option URL :=
  '(_, r) ← cut_at ":"%char s;
  match r with
  | String "/" (String "/" r') =>
      match cut_at "/"%char r' with
      | Some (h, p) => Some (mkURL h ("/" +:+ p))
      | None => Some (mkURL r' "/")
      end
  | _ => None
  end.

Definition primitives : Primitives :=
  {| generateKeyPairSync := keygen;
     sha256_base64 := fun s => dec (checksum s);
     rsa_sha256_sign := sign;
     rsa_sha256_verify := check;
     JSON_stringify := stringify;
     parseURL := url;
     toUTCString := fun ms => dec (ms / 1000);
     Date_parse := fun s => (fun sec => sec * 1000)%Z <$> undec s |}.

End Toy.

(** ** Observations and sample data *)

Module Samples.
Import Str KeyManagement Spec.



Definition BASE : string := "https://social.example".
Definition REMOTE : string := "https://remote.example".

Definition new_user (base name : string) : User :=
  mkUser name (Some "hash") (name +:+ "@example.org")
    (base +:+ "/users/" +:+ name) None None [] [].

(** alice, saved once on the local server with the random draw 7, and bob,
    saved once on the remote server with the random draw 9. *)
Definition alice : User := @pre_save Toy.primitives 7 (new_user BASE "alice").
Definition bob : User := @pre_save Toy.primitives 9 (new_user REMOTE "bob").

Definition db0 : gmap string User := {[ "alice" := alice ]}.
Definition remote_db : gmap string User := {[ "bob" := bob ]}.

Definition alice_uri : string := BASE +:+ "/users/alice".
Definition bob_uri : string := REMOTE +:+ "/users/bob".
Definition alice_inbox : string := alice_uri +:+ "/inbox".
Definition bob_inbox : string := bob_uri +:+ "/inbox".

Definition follow (actor object : string) : list (string * value) :=
  [ ("type", VStr "Follow"); ("actor", VStr actor); ("object", VStr object) ].

(** An ActorResolver that knows the public keys of alice and bob. *)
Definition resolver (actorUri : string) : option string :=
  if String.eqb actorUri alice_uri then publicKey alice
  else if String.eqb actorUri bob_uri then publicKey bob
  else None.

(** A Follow from bob that carries no Signature header at all. *)
Definition unsigned_follow : inbound_request :=
  Inbound "POST" "/users/alice/inbox"
    [("Host", "social.example"); ("Content-Type", "application/activity+json")]
    "{}".

Definition bob_follows_alice : Follow := mkFollow bob_uri alice_uri.

Definition minutes (n : Z) : Z := n * 60 * 1000.

(** A signing time, in milliseconds. *)
Definition t0 : Z := 1700000000000.


Definition the_request (r : result http_request) : http_request :=
  match r with
  | Ok req => req
  | Throw _ => HttpRequest "" "" [] ""
  end.

(** An inbox that gives every request the same answer. *)
Definition answers (a : answer) (req : http_request) : answer := a.

(** A redirect step that sends the same request to the new address. *)
Definition same_request_to (code : Z) (location : string) (req : http_request)
  : http_request :=
  HttpRequest (http_method req) location (http_headers req) (http_body req).

(** An inbox that has moved: the old address answers 307 with the new
    one, where the request is accepted. *)
Definition moved_inbox : string := REMOTE +:+ "/inbox/bob".
Definition moved_once (req : http_request) : answer :=
  if String.eqb (http_url req) moved_inbox then Answered 202 None
  else Answered 307 (Some moved_inbox).


(** The request bob's server signs at time [now] to follow alice, as the
    local inbox receives it. *)
Definition bob_request (now : Z) : inbound_request :=
  default unsigned_follow
    (@receive Toy.primitives
       (the_request
          (@signed_request Toy.primitives REMOTE remote_db now "bob" alice_inbox
             (follow bob_uri alice_uri)))).

End Samples.

(** ** FollowersPage.js: [fetchData], [cleanProfileUrl], [getUsernameFromUrl],
    [renderUserItem] *)

Module FollowersView.
Import JS Str FollowersPage.

(** The parts of [new URL(url)] that the page reads. *)
Record location := Location { protocol : string; hostname : string; path : string }.

(** [s.replace(/\/+$/, "")]: [s] without the slashes at its end. *)
Fixpoint strip_trailing_slashes (s : string) : string :=
  match s with
  | EmptyString => ""
  | String c r =>
      let r' := strip_trailing_slashes r in
      if Ascii.eqb c "/" && String.eqb r' "" then "" else String c r'
  end.

(** The state of the page: [followers], [following], [loading], [error]
    and the two totals. *)
Record page := Page {
  followers : list value;
  following : list value;
  loading : bool;
  error : option string;
  totalFollowers : value;
  totalFollowing : value
}.

(** [useState] initial values. *)
Definition initial_page : page := Page [] [] true None (VNum 0) (VNum 0).

(** [process.env.REACT_APP_API_URL || "https://5e52fc7be047.ngrok-free.app"] *)
Definition baseUrl (env : option string) : string :=
  match env with
  | Some s => if String.eqb s "" then "https://5e52fc7be047.ngrok-free.app" else s
  | None => "https://5e52fc7be047.ngrok-free.app"
  end.

(** [fetchData]: [net] is what [axios.get] settles to for each address. *)
Definition fetchData (env : option string) (username : string)
    (net : string -> axios_get) (st : page) : page :=
  let st := Page (followers st) (following st) true None
              (totalFollowers st) (totalFollowing st) in
  let attempt : result page :=
    f1 ← Ok (fetchCollection (net (baseUrl env +:+ "/users/" +:+ username +:+ "/followers")));
    f2 ← Ok (fetchCollection (net (baseUrl env +:+ "/users/" +:+ username +:+ "/following")));
    Ok (Page (items f1) (items f2) (loading st) (error st) (total f1) (total f2)) in
  let st :=
    match attempt with
    | Ok st' => st'
    | Throw _ =>
        Page (followers st) (following st) (loading st) (Some "Failed to load followers")
          (totalFollowers st) (totalFollowing st)
    end in
  Page (followers st) (following st) false (error st)
    (totalFollowers st) (totalFollowing st).

(** What [renderUserItem] computes for one entry. *)
Record user_item := UserItem {
  profileUrl : string;
  uname : string;
  avatar : string;
  isOwnProfile : bool
}.

Section Page.
(** [new URL(url)]; [None] when the constructor throws. *)
Variable URL_new : string -> option location.

Definition cleanProfileUrl (url : string) : string :=
  match URL_new url with
  | Some u => strip_trailing_slashes (protocol u +:+ "//" +:+ hostname u +:+ path u)
  | None => url
  end.

Definition getUsernameFromUrl (url : string) : string :=
  let parts := split_on "/" (cleanProfileUrl url) in
  let last_part := List.last parts "" in
  if String.eqb last_part "" then "user" else last_part.

(** [currentUser && currentUser.username === username] *)
Definition own_profile (currentUser : value) (username : string) : bool :=
  truthy currentUser
  && match prop currentUser "username" with
     | VStr s => String.eqb s username
     | _ => false
     end.

Definition renderUserItem (currentUser : value) (username url : string) : user_item :=
  let profileUrl := cleanProfileUrl url in
  let uname := getUsernameFromUrl profileUrl in
  {| profileUrl := profileUrl;
     uname := uname;
     avatar := "https://ui-avatars.com/api/?name=" +:+ uname
               +:+ "&background=random&color=fff&size=64";
     isOwnProfile := own_profile currentUser username |}.

End Page.

(** A reader of [scheme://host/path] addresses, to run the page on. *)
Definition simple_URL (s : string) : option location :=
  '(scheme, r) ← cut_at ":" s;
  match r with
  | String "/" (String "/" r') =>
      match cut_at "/" r' with
      | Some (h, p) => Some (Location (scheme +:+ ":") h ("/" +:+ p))
      | None => Some (Location (scheme +:+ ":") r' "/")
      end
  | _ => None
  end.

(** A reader of [scheme://host/path?query#fragment] addresses: the
    fragment and the query are not part of the path. *)
Definition full_URL (s : string) : option location :=
  let s := match cut_at "#" s with Some (a, _) => a | None => s end in
  let s := match cut_at "?" s with Some (a, _) => a | None => s end in
  simple_URL s.

End FollowersView.

(** ** The feed page: comments *)

Module Comments.

Record comment := Comment {
  comment_id : string;
  content : string;
  comment_rest : list (string * value)
}.

(** The state of the comment modal. *)
Record modal := Modal {
  showModal : bool;
  selectedPostId : option string;
  comments : list comment;
  newComment : string;
  editingComment : option string;
  editCommentText : string
}.

(** [useState] initial values. *)
Definition initial_modal : modal := Modal false None [] "" None "".

(** A request to the comment API: the method, the address, the [content]
    sent with it. *)
Record api_request := ApiRequest {
  api_method : string;
  api_url : string;
  api_content : option string
}.

(** [`${selectedPostId}`] in a template literal. *)
Definition post_segment (o : option string) : string := default "null" o.

Section Modal.
(** [process.env.REACT_APP_API_URL] and [String.prototype.trim]. *)
Variable api : string.
Variable trim : string -> string.

(** [openCommentModal]: [reply] is [None] when the request fails and
    [Some None] when [res.data] is not an array. *)
Definition openCommentModal (reply : option (option (list comment)))
    (postId : string) (st : modal) : modal * list api_request :=
  let req := ApiRequest "get" (api +:+ "/api/posts/" +:+ postId +:+ "/comment") None in
  let commentsArray :=
    match reply with
    | Some (Some l) => l
    | Some None => []
    | None => []
    end in
  (Modal true (Some postId) commentsArray (newComment st) None "", [req]).

(** [handleCommentSubmit]: [reply] is the comment the server created. *)
Definition handleCommentSubmit (reply : option comment) (st : modal)
  : modal * list api_request :=
  if String.eqb (trim (newComment st)) "" then (st, [])
  else
    let req := ApiRequest "post"
                 (api +:+ "/api/posts/" +:+ post_segment (selectedPostId st) +:+ "/comment")
                 (Some (newComment st)) in
    match reply with
    | Some created =>
        (Modal (showModal st) (selectedPostId st) (comments st ++ [created])%list ""
           (editingComment st) (editCommentText st), [req])
    | None => (st, [req])
    end.

(** [handleDeleteComment]: [confirmed] is the answer to [window.confirm],
    [ok] whether the DELETE succeeds; the third component is what [alert]
    shows. *)
Definition handleDeleteComment (confirmed ok : bool) (commentId : string) (st : modal)
  : modal * list api_request * list string :=
  if negb confirmed then (st, [], [])
  else
    let req := ApiRequest "delete" (api +:+ "/api/comments/" +:+ commentId) None in
    if ok then
      (Modal (showModal st) (selectedPostId st)
         (List.filter (fun c => negb (String.eqb (comment_id c) commentId)) (comments st))
         (newComment st) (editingComment st) (editCommentText st), [req], [])
    else (st, [req], ["Failed to delete comment"]).

Definition startEditComment (c : comment) (st : modal) : modal :=
  Modal (showModal st) (selectedPostId st) (comments st) (newComment st)
    (Some (comment_id c)) (content c).

Definition cancelEditComment (st : modal) : modal :=
  Modal (showModal st) (selectedPostId st) (comments st) (newComment st) None "".

(** [handleEditComment]: [reply] is the comment the server stored. *)
Definition handleEditComment (reply : option comment) (commentId : string) (st : modal)
  : modal * list api_request :=
  if String.eqb (trim (editCommentText st)) "" then (st, [])
  else
    let req := ApiRequest "put" (api +:+ "/api/comments/" +:+ commentId)
                 (Some (editCommentText st)) in
    match reply with
    | Some stored =>
        (Modal (showModal st) (selectedPostId st)
           (List.map (fun c => if String.eqb (comment_id c) commentId then stored else c)
              (comments st))
           (newComment st) None "", [req])
    | None => (st, [req])
    end.

Definition closeModal (st : modal) : modal := Modal false None [] "" None "".

End Modal.

End Comments.

(** ** The feed page: what a post card shows *)

Module FeedRender.
Import FeedPage.

(** [(post.likes || []).includes(userId)] *)
Definition isLiked (userId : string) (p : post) : bool :=
  includes userId (default [] (likes p)).

(** [(post.likes || []).length] *)
Definition likeCount (p : post) : nat := List.length (default [] (likes p)).

End FeedRender.

(** ** The feed page: [formatDate] *)

Module FeedTime.

(** [`${n}`] for an integer [n]. *)
Definition show_int (n : Z) : string :=
  if (n <? 0)%Z
  then "-" +:+ NilZero.string_of_uint (N.to_uint (Z.to_N (- n)))
  else NilZero.string_of_uint (N.to_uint (Z.to_N n)).

Section Clock.
(** [new Date(s).getTime()], [None] for an invalid date, and
    [toLocaleDateString('en-US', { month: 'short', day: 'numeric' })]. *)
Variable Date_new : string -> option Z.
Variable toLocaleDateString : Z -> string.

(** [formatDate] at time [now]; [dateString] is [None] when the field is
    missing. All times are in milliseconds. *)
Definition formatDate (now : Z) (dateString : option string) : string :=
  match dateString with
  | None => "Recently"
  | Some s =>
      if String.eqb s "" then "Recently"
      else
        match Date_new s with
        | None => "Invalid Date"
        | Some date =>
            let diffMs := (now - date)%Z in
            let diffMins := (diffMs / 60000)%Z in
            let diffHours := (diffMs / 3600000)%Z in
            let diffDays := (diffMs / 86400000)%Z in
            if (diffMins <? 60)%Z then show_int diffMins +:+ "m ago"
            else if (diffHours <? 24)%Z then show_int diffHours +:+ "h ago"
            else if (diffDays <? 7)%Z then show_int diffDays +:+ "d ago"
            else toLocaleDateString date
        end
  end.

End Clock.

End FeedTime.

(** ** KEY_MANAGEMENT.md: [migrateKeys] and Mongoose's [find] *)

Module Maintenance.
Import KeyManagement.

(** [await User.find({}).select(...)]: every stored user, projected. *)
Definition find_all (db : gmap string User) (q : query) : list User :=
  (fun kv => project q (snd kv)) <$> map_to_list db.

Section Keys.
Context `{Primitives}.

(** The body of the loop of [migrateKeys] for the document [user] that was
    read before the loop; [log] collects the user names that
    [console.log] prints. The draws of the generator and of the hook are
    given per user name. *)
Definition migrate_step (rnd rnd' : string -> Z)
    (acc : gmap string User * list string) (user : User)
  : gmap string User * list string :=
  if negb (truthy (publicKey user)) || negb (truthy (privateKey user)) then
    let '(publicKey, privateKey) :=
      generateKeyPairSync "rsa" rsa_options (rnd (username user)) in
    (save (rnd' (username user)) (set_keys publicKey privateKey user) (fst acc),
     (snd acc ++ [username user])%list)
  else acc.

Definition migrateKeys (rnd rnd' : string -> Z) (db : gmap string User)
  : gmap string User * list string :=
  foldl (migrate_step rnd rnd') (db, [])
    (find_all db (select "+privateKey" (Query "" []))).

(** What the migration is meant to leave for one stored user. *)
Definition with_keys (rnd : string -> Z) (u : User) : User :=
  if truthy (publicKey u) && truthy (privateKey u) then u
  else set_keys (fst (generateKeyPairSync "rsa" rsa_options (rnd (username u))))
                (snd (generateKeyPairSync "rsa" rsa_options (rnd (username u)))) u.

End Keys.

(** The code of KEY_MANAGEMENT.md that reads the user collection: the
    Actor endpoint [exports.actor], [sendSignedRequest], the repair step of
    "Private key not found for user", the re-save of "Public key not
    configured", and [migrateKeys]. *)
Inductive reader := ActorEndpoint | Signer | KeyRepair | Resave | Migration.

(** The query that each of them builds; [migrateKeys] reads every user
    with [User.find({})]. *)
Definition query_of (r : reader) (name : string) : query :=
  match r with
  | ActorEndpoint => findOne name
  | Signer => select "+privateKey" (findOne name)
  | KeyRepair => select "+privateKey" (findOne name)
  | Resave => findOne name
  | Migration => select "+privateKey" (Query "" [])
  end.


(** The readers that generate the keys a user lacks and store them. *)
Definition maintains_keys (r : reader) : bool :=
  match r with
  | KeyRepair | Migration => true
  | _ => false
  end.


(** Every user is stored under its name. *)
Definition keyed (db : gmap string User) : Prop :=
  forall k u, db !! k = Some u -> username u = k.

End Maintenance.

(** ** More sample data *)

Module MoreSamples.
Import KeyManagement Samples.

(** A collection with alice, who has keys, and carol, who was created
    before keys were generated. *)
Definition legacy_db : gmap string User :=
  <["carol" := new_user BASE "carol"]> db0.

(** A clock that reads decimal milliseconds, and a calendar that always
    prints the same day. *)
Definition decimal_clock (s : string) : option Z := Toy.undec s.
Definition fixed_day (date : Z) : string := "Nov 14".

End MoreSamples.

(** * Properties *)

(** ** [fetchCollection] *)

Section FetchCollection.
Import JS FollowersPage.

Lemma normalizeItem_string s : normalizeItem (VStr s) = VStr s.
Proof. reflexivity. Qed.

(** An object is mapped to its first truthy property among [id], [url]
    and [href], whatever the type of that property. *)
Lemma normalizeItem_object fields :
  normalizeItem (VObj fields) =
    or (or (or (lookup_field "id" fields) (lookup_field "url" fields))
          (lookup_field "href" fields)) VNull.
Proof. reflexivity. Qed.

Lemma normalizeItem_other v :
  typeof v <> "string" -> (forall fields, v <> VObj fields) -> normalizeItem v = VNull.
Proof.
  destruct v; intros Hs Ho; try reflexivity.
  - now contradiction Hs.
  - now contradiction (Ho fields).
Qed.

(** Whatever [axios.get] does, the catch block answers. *)
Lemma fetchCollection_caught res e :
  fetchCollection_try res = Throw e -> fetchCollection res = Collection [] (VNum 0).
Proof. unfold fetchCollection. now intros ->. Qed.

Lemma fetchCollection_rejected err :
  fetchCollection (Rejected err) = Collection [] (VNum 0).
Proof. reflexivity. Qed.

Lemma normalize_all_not_null v xs :
  normalize_all v = Ok xs -> Forall (fun x => not_null x = true) xs.
Proof.
  destruct v; simpl; try discriminate.
  intros [= <-]. apply List.Forall_forall. intros x Hx.
  now apply List.filter_In in Hx as [_ Hx].
Qed.

(** No element of the returned list is [null]. *)
Lemma fetchCollection_items_not_null res :
  Forall (fun x => not_null x = true) (items (fetchCollection res)).
Proof.
  unfold fetchCollection.
  destruct (fetchCollection_try res) as [c|e] eqn:E; [|constructor].
  destruct res as [err|data]; [discriminate|].
  simpl in E.
  destruct (get data "orderedItems") as [oi|]; [|discriminate]. simpl in E.
  match type of E with
  | context [mbind _ ?m] => destruct m as [[its tot]|] eqn:Em; [|discriminate]
  end.
  simpl in E.
  destruct (normalize_all its) as [ns|] eqn:En; [|discriminate].
  simpl in E. injection E as <-. simpl.
  eapply normalize_all_not_null; eauto.
Qed.

(** C10, at the input that refutes it: an actor object without [id] whose
    [url] is an ActivityStreams Link object. [normalizeItem] returns that
    object, the filter keeps it (it is not [null]), and [items] holds a
    value that is not a string. *)
Theorem fetchCollection_link_object :
  fetchCollection (Resolved link_collection)
  = Collection [VObj [("type", VStr "Link"); ("href", VStr "https://remote.example/@bob")]]
      (VNum 1)
  /\ ~ Forall (fun x => is_string x = true) (items (fetchCollection (Resolved link_collection))).
Proof.
  split; [reflexivity|].
  intros Hall. inversion Hall as [|x l Hx _]; subst. discriminate Hx.
Qed.

(** When every property of an object item is a string, the item is
    mapped to a string or dropped. *)
Lemma or_cases a b : or a b = a /\ truthy a = true \/ or a b = b /\ truthy a = false.
Proof. unfold or. destruct (truthy a); auto. Qed.

Lemma lookup_field_string k fields :
  Forall (fun kv => is_string (snd kv) = true) fields ->
  lookup_field k fields = VUndefined \/ is_string (lookup_field k fields) = true.
Proof.
  intros Hall. induction Hall as [|[k' v] rest Hv _ IH]; simpl; [now left|].
  destruct (String.eqb k k'); [now right|exact IH].
Qed.

Lemma normalizeItem_string_fields fields :
  Forall (fun kv => is_string (snd kv) = true) fields ->
  normalizeItem (VObj fields) = VNull \/ is_string (normalizeItem (VObj fields)) = true.
Proof.
  intros Hall. rewrite normalizeItem_object.
  pose proof (lookup_field_string "id" fields Hall) as Hid.
  pose proof (lookup_field_string "url" fields Hall) as Hurl.
  pose proof (lookup_field_string "href" fields Hall) as Hhref.
  set (a := lookup_field "id" fields) in *.
  set (b := lookup_field "url" fields) in *.
  set (c := lookup_field "href" fields) in *.
  destruct (or_cases (or (or a b) c) VNull) as [[-> Ht]|[-> _]]; [right|now left].
  destruct (or_cases (or a b) c) as [[E T]|[E _]]; rewrite E in *.
  - destruct (or_cases a b) as [[E' T']|[E' _]]; rewrite E' in *.
    + destruct Hid as [Hu|Hs]; [rewrite Hu in T'; discriminate|exact Hs].
    + destruct Hurl as [Hu|Hs]; [rewrite Hu in T; discriminate|exact Hs].
  - destruct Hhref as [Hu|Hs]; [rewrite Hu in Ht; discriminate|exact Hs].
Qed.

End FetchCollection.

(** ** [handleLike] *)

Section HandleLike.
Import FeedPage.

Lemma filter_neq_remove (x : string) (l : list string) :
  List.filter (fun id => negb (String.eqb id x)) l = List.remove string_dec x l.
Proof.
  induction l as [|y l IH]; [reflexivity|]. simpl.
  destruct (string_dec x y) as [->|Hne].
  - rewrite String.eqb_refl. exact IH.
  - destruct (String.eqb_spec y x) as [->|_]; [congruence|]. simpl. now rewrite IH.
Qed.

Lemma toggle_like_other userId postId p :
  _id p <> postId -> toggle_like userId postId p = p.
Proof.
  intros Hne. unfold toggle_like.
  destruct (String.eqb_spec (_id p) postId); [contradiction|reflexivity].
Qed.

Lemma toggle_like_target userId p :
  like_toggled userId p (toggle_like userId (_id p) p).
Proof.
  unfold toggle_like, like_toggled. rewrite String.eqb_refl. simpl.
  repeat split. destruct (includes userId (default [] (likes p))); [|reflexivity].
  now rewrite filter_neq_remove.
Qed.

Lemma map_toggle_like userId postId l :
  Forall2
    (fun p p' => if String.eqb (_id p) postId then like_toggled userId p p' else p' = p)
    l (List.map (toggle_like userId postId) l).
Proof.
  induction l as [|p l IH]; constructor; [|exact IH].
  destruct (String.eqb_spec (_id p) postId) as [<-|Hne].
  - apply toggle_like_target.
  - now apply toggle_like_other.
Qed.

(** With a token, a post id and a like request that succeeds, the new
    feed is the old one with the updater applied to every post. *)
Lemma handleLike_feed api srv st postId :
  truthy_opt (token st) = true -> truthy_str postId = true -> like_ok srv = true ->
  feed (fst (handleLike api srv st postId))
  = List.map (toggle_like (userId st) postId) (feed st).
Proof.
  intros Ht Hp Hok. unfold handleLike. rewrite Ht, Hp, Hok. reflexivity.
Qed.

(** C9 as stated fails: signed out, [handleLike] returns before it touches
    the feed, so the post aimed at keeps its likes; and when the like
    request fails the feed is replaced by what the server sends. *)
Lemma handleLike_guard_and_reload :
  ~ toggles_only "" (Server true None) signed_out "p1"
  /\ ~ toggles_only "" (Server false (Some (Some []))) signed_in "p2".
Proof.
  split; intros Hc; unfold toggles_only in Hc; simpl in Hc.
  - inversion Hc as [|? ? ? ? Hp1 _]; subst.
    destruct Hp1 as (_ & _ & Hl). discriminate Hl.
  - inversion Hc.
Qed.

Lemma handleLike_guarded api srv st postId :
  truthy_opt (token st) = false \/ truthy_str postId = false ->
  handleLike api srv st postId = (st, []).
Proof.
  intros Hg. unfold handleLike.
  destruct Hg as [-> | ->]; [reflexivity|]. now rewrite orb_true_r.
Qed.

(** C9, amended. Without a token or with an empty post id, [handleLike]
    returns the state as it was and sends no request. With both, it sends
    one like request; when that request succeeds, every post with another
    [_id] is as it was, [userId] is toggled in the likes of the posts with
    that [_id] (removed if present, appended if absent), their other
    fields are unchanged, and so is the rest of the state; when it fails,
    the state is what [fetchFeed] makes of the toggled one: the feed that
    the server returns and no error, or, if the reload fails too, the
    toggled feed and the error message of [fetchFeed]. *)
Theorem handleLike_toggles api srv st postId :
  let st' := fst (handleLike api srv st postId) in
  let toggled := List.map (toggle_like (userId st) postId) (feed st) in
  (truthy_opt (token st) = false \/ truthy_str postId = false ->
   handleLike api srv st postId = (st, []))
  /\ (truthy_opt (token st) = true -> truthy_str postId = true ->
      (exists m, snd (handleLike api srv st postId)
                 = [LikeRequest m (api +:+ "/api/posts/" +:+ postId +:+ "/like")])
      /\ (like_ok srv = true ->
          toggles_only api srv st postId
          /\ st' = State toggled (token st) (userId st) (loading st) (error st))
      /\ (like_ok srv = false ->
          st' = fetchFeed srv (State toggled (token st) (userId st) (loading st) (error st))
          /\ (forall data, feed_reply srv = Some data ->
                feed st' = default [] data /\ error st' = None)
          /\ (feed_reply srv = None ->
              feed st' = toggled
              /\ error st' = Some "Failed to load feed. Please try again."))).
Proof.
  cbv zeta. split; [apply handleLike_guarded|].
  intros Ht Hp. split; [|split].
  - unfold handleLike. rewrite Ht, Hp. cbn [negb orb].
    destruct (like_ok srv); eexists; reflexivity.
  - intros Hok. split.
    + unfold toggles_only. rewrite handleLike_feed by assumption.
      apply map_toggle_like.
    + unfold handleLike. rewrite Ht, Hp, Hok. reflexivity.
  - intros Hok.
    assert (E : fst (handleLike api srv st postId)
                = fetchFeed srv
                    (State (List.map (toggle_like (userId st) postId) (feed st))
                       (token st) (userId st) (loading st) (error st))).
    { unfold handleLike. rewrite Ht, Hp, Hok. reflexivity. }
    rewrite E. split; [reflexivity|]. split.
    + intros data Hd. unfold fetchFeed. rewrite Hd. split; reflexivity.
    + intros Hd. unfold fetchFeed. rewrite Hd. split; reflexivity.
Qed.

Lemma handleLike_toggles_witness :
  handleLike "https://api" (Server true None) signed_out "p1" = (signed_out, [])
  /\ handleLike "https://api" (Server true None) signed_in "" = (signed_in, [])
  /\ toggles_only "https://api" (Server true None) signed_in "p2"
  /\ feed (fst (handleLike "https://api" (Server false (Some (Some []))) signed_in "p2")) = []
  /\ feed (fst (handleLike "https://api" (Server false None) signed_in "p2"))
     = [ Post "p1" (Some ["bob"]) [("caption", VStr "hello")];
         Post "p2" (Some ["alice"]) [("caption", VStr "world")] ].
Proof.
  destruct (handleLike_toggles "https://api" (Server true None) signed_out "p1")
    as [G1 _].
  destruct (handleLike_toggles "https://api" (Server true None) signed_in "")
    as [G2 _].
  destruct (handleLike_toggles "https://api" (Server true None) signed_in "p2")
    as [_ T].
  destruct (T eq_refl eq_refl) as (_ & T1 & _).
  destruct (handleLike_toggles "https://api" (Server false (Some (Some []))) signed_in "p2")
    as [_ R].
  destruct (R eq_refl eq_refl) as (_ & _ & R1).
  destruct (R1 eq_refl) as (_ & R2 & _).
  destruct (handleLike_toggles "https://api" (Server false None) signed_in "p2")
    as [_ F].
  destruct (F eq_refl eq_refl) as (_ & _ & F1).
  destruct (F1 eq_refl) as (_ & _ & F2).
  split; [exact (G1 (or_introl eq_refl))|].
  split; [exact (G2 (or_intror eq_refl))|].
  split; [exact (proj1 (T1 eq_refl))|].
  split; [exact (proj1 (R2 (Some []) eq_refl))|].
  exact (proj1 (F2 eq_refl)).
Defined.

(** The request sent tells the server to unlike exactly when the user's id
    was among the likes of the first post with that [_id]. *)
Lemma handleLike_method api srv st postId :
  truthy_opt (token st) = true -> truthy_str postId = true ->
  exists m,
    snd (handleLike api srv st postId)
    = [LikeRequest m (api +:+ "/api/posts/" +:+ postId +:+ "/like")]
    /\ (m = "delete" \/ m = "post").
Proof.
  intros Ht Hp. unfold handleLike. rewrite Ht, Hp. simpl.
  match goal with
  | |- context [if includes ?u ?l then _ else _] => destruct (includes u l)
  end;
    destruct (like_ok srv); simpl; eauto.
Qed.

End HandleLike.

(** ** Strings *)

Section StrFacts.
Import Str.
#[local] Arguments String.append !_ _ / : simpl nomatch.

Lemma contains_char_cons c x s :
  contains_char c (String x s) = Ascii.eqb c x || contains_char c s.
Proof. reflexivity. Qed.

Lemma contains_char_app c a b :
  contains_char c (a +:+ b) = contains_char c a || contains_char c b.
Proof.
  induction a as [|x a IH]; [reflexivity|].
  simpl String.append. rewrite !contains_char_cons, IH. now rewrite orb_assoc.
Qed.

Lemma split_on_nonempty c s : split_on c s <> [].
Proof.
  destruct s as [|x s]; simpl; [discriminate|].
  destruct (Ascii.eqb x c); [discriminate|].
  destruct (split_on c s); discriminate.
Qed.

Lemma split_on_absent c s :
  contains_char c s = false -> split_on c s = [s].
Proof.
  induction s as [|x s IH]; [reflexivity|].
  rewrite contains_char_cons. intros [Hx Hs]%orb_false_elim.
  simpl. rewrite Ascii.eqb_sym, Hx. now rewrite IH.
Qed.

Lemma split_on_app c a b :
  contains_char c a = false ->
  split_on c (a +:+ String c b) = a :: split_on c b.
Proof.
  induction a as [|x a IH]; simpl String.append.
  - intros _. simpl. now rewrite Ascii.eqb_refl.
  - rewrite contains_char_cons. intros [Hx Ha]%orb_false_elim.
    simpl. rewrite Ascii.eqb_sym, Hx. now rewrite IH.
Qed.

(** Splitting undoes joining when no part holds the separator. *)
Lemma split_on_join c parts :
  parts <> [] ->
  Forall (fun p => contains_char c p = false) parts ->
  split_on c (join (String c "") parts) = parts.
Proof.
  induction parts as [|p rest IH]; [congruence|]. intros _ Hall.
  apply Forall_cons_1 in Hall as [Hp Hrest].
  destruct rest as [|q rest].
  - simpl. now apply split_on_absent.
  - change (join (String c "") (p :: q :: rest))
      with (p +:+ String c (join (String c "") (q :: rest))).
    rewrite split_on_app by assumption. f_equal. now apply IH.
Qed.

Lemma split_on_app_sep c a b :
  split_on c (a +:+ String c b) = (split_on c a ++ split_on c b)%list.
Proof.
  induction a as [|x a IH]; simpl String.append.
  - simpl. now rewrite Ascii.eqb_refl.
  - simpl. rewrite IH. destruct (Ascii.eqb x c); [reflexivity|].
    destruct (split_on c a) as [|h t] eqn:E; [now apply split_on_nonempty in E|].
    reflexivity.
Qed.

(** Joining undoes splitting. *)
Lemma join_split_on c s : join (String c "") (split_on c s) = s.
Proof.
  induction s as [|x s IH]; [reflexivity|]. simpl.
  destruct (split_on c s) as [|h t] eqn:E; [now apply split_on_nonempty in E|].
  destruct (Ascii.eqb_spec x c) as [->|_].
  - change (join (String c "") ("" :: h :: t))
      with (String c (join (String c "") (h :: t))).
    now rewrite IH.
  - destruct t as [|h' t]; simpl in *; now rewrite IH.
Qed.

Lemma cut_at_app c a b :
  contains_char c a = false -> cut_at c (a +:+ String c b) = Some (a, b).
Proof.
  induction a as [|x a IH]; simpl String.append.
  - intros _. simpl. now rewrite Ascii.eqb_refl.
  - rewrite contains_char_cons. intros [Hx Ha]%orb_false_elim.
    simpl. rewrite Ascii.eqb_sym, Hx. now rewrite IH.
Qed.

Lemma drop_last_app c a : drop_last c (a +:+ String c "") = Some a.
Proof.
  induction a as [|x a IH]; simpl String.append.
  - simpl. now rewrite Ascii.eqb_refl.
  - simpl. rewrite IH.
    destruct (a +:+ String c "") eqn:E; [|reflexivity].
    destruct a; discriminate E.
Qed.

Lemma length_append a b :
  String.length (a +:+ b) = (String.length a + String.length b)%nat.
Proof. induction a as [|x a IH]; simpl; [reflexivity|now rewrite IH]. Qed.

Lemma append_assoc a b c : (a +:+ b) +:+ c = a +:+ (b +:+ c).
Proof. induction a as [|x a IH]; simpl; [reflexivity|now rewrite IH]. Qed.

Lemma strip_suffix_app suf a : strip_suffix suf (a +:+ suf) = Some a.
Proof.
  induction a as [|x a IH]; simpl String.append.
  - destruct suf; simpl; now rewrite ?String.eqb_refl, ?Ascii.eqb_refl.
  - assert (Hne : String.eqb (String x (a +:+ suf)) suf = false).
    { apply String.eqb_neq. intros E. apply (f_equal String.length) in E.
      simpl in E. rewrite length_append in E. lia. }
    unfold strip_suffix; fold strip_suffix. rewrite Hne, IH. reflexivity.
Qed.

End StrFacts.

(** ** Key management *)

Section KeyFacts.
Import Str KeyManagement Spec Samples.
Context `{Primitives}.
#[local] Arguments String.append !_ _ / : simpl nomatch.

(** The signer's template is the canonical string of a POST. *)
Lemma signatureHeaders_canonical pathname host date digest :
  signatureHeaders pathname host date digest
  = canonicalString "POST" pathname host date digest.
Proof. reflexivity. Qed.

(** C6: the canonical string is four lines, in the order
    (request-target), host, date, digest, each a header name, a colon and
    the value; and for a POST the signer's template is that same text. *)
Theorem canonical_string_lines method pathname host date digest :
  contains_char "010" (lower method) = false ->
  contains_char "010" pathname = false ->
  contains_char "010" host = false ->
  contains_char "010" date = false ->
  contains_char "010" digest = false ->
  split_on "010" (canonicalString method pathname host date digest)
  = [ "(request-target): " +:+ lower method +:+ " " +:+ pathname;
      "host: " +:+ host;
      "date: " +:+ date;
      "digest: SHA-256=" +:+ digest ]
  /\ (lower method = "post" ->
      signatureHeaders pathname host date digest
      = canonicalString method pathname host date digest).
Proof.
  intros Hm Hp Hh Hd Hg. split.
  - unfold canonicalString. simpl List.map.
    change nl with (String "010" "").
    rewrite split_on_join.
    + reflexivity.
    + discriminate.
    + repeat constructor; simpl; rewrite ?contains_char_cons; simpl;
        rewrite ?contains_char_app, ?Hm; simpl; assumption.
  - intros Hpost. unfold canonicalString. simpl. rewrite Hpost. reflexivity.
Qed.

Lemma canonical_string_lines_witness :
  split_on "010"
    (canonicalString "POST" "/users/bob/inbox" "remote.example" "1700000000" "4242")
  = [ "(request-target): post /users/bob/inbox";
      "host: remote.example";
      "date: 1700000000";
      "digest: SHA-256=4242" ]
  /\ signatureHeaders "/users/bob/inbox" "remote.example" "1700000000" "4242"
     = canonicalString "POST" "/users/bob/inbox" "remote.example" "1700000000" "4242".
Proof.
  destruct (canonical_string_lines "POST" "/users/bob/inbox" "remote.example"
              "1700000000" "4242") as [Hlines Hsame]; try reflexivity.
  split; [exact Hlines|]. apply Hsame. reflexivity.
Defined.

(** *** The pre-save hook *)

Lemma truthy_Some s : s <> "" -> truthy (Some s) = true.
Proof. intros Hs. simpl. now destruct (String.eqb_spec s ""). Qed.

Lemma pre_save_present rnd u :
  truthy (publicKey u) = true -> truthy (privateKey u) = true -> pre_save rnd u = u.
Proof. intros Hp Hk. unfold pre_save. now rewrite Hp, Hk. Qed.

Lemma pre_save_missing rnd u :
  truthy (publicKey u) && truthy (privateKey u) = false ->
  pre_save rnd u
  = set_keys (fst (generateKeyPairSync "rsa" rsa_options rnd))
             (snd (generateKeyPairSync "rsa" rsa_options rnd)) u.
Proof.
  intros Hm. unfold pre_save.
  rewrite <- negb_andb, Hm. simpl.
  now destruct (generateKeyPairSync "rsa" rsa_options rnd).
Qed.

(** On a document that carries no keypair the hook stores the pair that
    [generateKeyPairSync] returns for RSA with a 2048-bit modulus, SPKI/PEM
    and PKCS8/PEM; on a document that carries both keys it changes nothing;
    and a second run on the same document never changes what the first run
    left. *)
Lemma pre_save_idempotent rnd rnd' u :
  (forall r, fst (generateKeyPairSync "rsa" rsa_options r) <> ""
             /\ snd (generateKeyPairSync "rsa" rsa_options r) <> "") ->
  rsa_options = KeygenOptions 2048 (Encoding "spki" "pem") (Encoding "pkcs8" "pem")
  /\ (truthy (publicKey u) && truthy (privateKey u) = false ->
      publicKey (pre_save rnd u) = Some (fst (generateKeyPairSync "rsa" rsa_options rnd))
      /\ privateKey (pre_save rnd u) = Some (snd (generateKeyPairSync "rsa" rsa_options rnd)))
  /\ (truthy (publicKey u) && truthy (privateKey u) = true -> pre_save rnd u = u)
  /\ pre_save rnd' (pre_save rnd u) = pre_save rnd u.
Proof.
  intros Hgen. split; [reflexivity|]. split; [|split].
  - intros Hm. now rewrite pre_save_missing.
  - intros [Hp Hk]%andb_prop. now apply pre_save_present.
  - destruct (truthy (publicKey u) && truthy (privateKey u)) eqn:E.
    + apply andb_prop in E as [Hp Hk].
      rewrite (pre_save_present rnd u Hp Hk). now apply pre_save_present.
    + rewrite (pre_save_missing rnd u E).
      destruct (Hgen rnd) as [Hp Hk].
      apply pre_save_present; simpl; now apply truthy_Some.
Qed.

(** *** Saving *)

Lemma written_set_keys pub priv stored q :
  written stored (set_keys pub priv (project q stored)) = set_keys pub priv stored.
Proof.
  unfold written, set_keys, project. simpl. f_equal.
  destruct (returned q "password"); [|reflexivity]. now destruct (password stored).
Qed.

(** Re-saving a user that was read the default way always generates: the
    document has no [privateKey], so the hook's test succeeds whatever the
    collection stores, and the new pair replaces the stored one. *)
Lemma resave_regenerates rnd name stored db :
  db !! name = Some stored -> username stored = name ->
  resave rnd name db
  = <[name := set_keys (fst (generateKeyPairSync "rsa" rsa_options rnd))
                       (snd (generateKeyPairSync "rsa" rsa_options rnd)) stored]> db.
Proof.
  intros Hdb Hname. unfold resave, exec. simpl. rewrite Hdb. simpl.
  unfold save. rewrite pre_save_missing by (simpl; apply andb_false_r).
  simpl. rewrite Hname, Hdb. now rewrite written_set_keys.
Qed.

(** The migration step reads the private key before it tests, and leaves a
    user that has both keys alone. *)
Lemma migrate_user_present rnd rnd' name stored db :
  db !! name = Some stored ->
  truthy (publicKey stored) = true -> truthy (privateKey stored) = true ->
  migrate_user rnd rnd' name db = db.
Proof.
  intros Hdb Hp Hk. unfold migrate_user, exec. simpl. rewrite Hdb. simpl.
  now rewrite Hp, Hk.
Qed.

Lemma migrate_user_missing rnd rnd' name stored db :
  (forall r, fst (generateKeyPairSync "rsa" rsa_options r) <> ""
             /\ snd (generateKeyPairSync "rsa" rsa_options r) <> "") ->
  db !! name = Some stored -> username stored = name ->
  truthy (publicKey stored) && truthy (privateKey stored) = false ->
  migrate_user rnd rnd' name db
  = <[name := set_keys (fst (generateKeyPairSync "rsa" rsa_options rnd))
                       (snd (generateKeyPairSync "rsa" rsa_options rnd)) stored]> db.
Proof.
  intros Hgen Hdb Hname Hm. unfold migrate_user, exec. simpl. rewrite Hdb. simpl.
  rewrite <- negb_andb, Hm. simpl.
  destruct (generateKeyPairSync "rsa" rsa_options rnd) as [pub priv] eqn:E.
  pose proof (Hgen rnd) as [Hp Hk]. rewrite E in Hp, Hk. simpl in Hp, Hk.
  unfold save. rewrite pre_save_present by (simpl; now apply truthy_Some).
  simpl. rewrite Hname, Hdb.
  change (set_keys pub priv
            {| username := username stored;
               password := None;
               email := email stored;
               actorUrl := actorUrl stored;
               publicKey := publicKey stored;
               privateKey := privateKey stored;
               followers := followers stored;
               following := following stored |})
    with (set_keys pub priv (project (select "+privateKey" (findOne name)) stored)).
  now rewrite written_set_keys.
Qed.

(** Run twice, the migration step stores what it stored the first time. *)
Lemma migrate_user_idempotent r1 r1' r2 r2' name stored db :
  (forall r, fst (generateKeyPairSync "rsa" rsa_options r) <> ""
             /\ snd (generateKeyPairSync "rsa" rsa_options r) <> "") ->
  db !! name = Some stored -> username stored = name ->
  migrate_user r2 r2' name (migrate_user r1 r1' name db) = migrate_user r1 r1' name db.
Proof.
  intros Hgen Hdb Hname.
  destruct (truthy (publicKey stored) && truthy (privateKey stored)) eqn:E.
  - apply andb_prop in E as [Hp Hk].
    rewrite (migrate_user_present r1 r1' name stored db Hdb Hp Hk).
    now apply (migrate_user_present r2 r2' name stored db).
  - rewrite (migrate_user_missing r1 r1' name stored db Hgen Hdb Hname E).
    destruct (Hgen r1) as [Hp Hk].
    eapply migrate_user_present.
    + apply lookup_insert_eq.
    + simpl. now apply truthy_Some.
    + simpl. now apply truthy_Some.
Qed.

(** *** Reads of the user collection *)

Lemma project_default_private u : privateKey (project (findOne (username u)) u) = None.
Proof. reflexivity. Qed.



Lemma exec_elevated_private db name :
  exec db (select "+privateKey" (findOne name)) ≫= privateKey
  = db !! name ≫= privateKey.
Proof. unfold exec. simpl. now destruct (db !! name). Qed.




(** *** Delivery *)




Lemma axios_request_wire R n net req :
  exists rest, snd (axios_request R n net req) = req :: rest /\ (length rest <= n)%nat.
Proof.
  revert req. induction n as [|n IH]; intros req; simpl;
    destruct (redirect_of (net req)) as [[code location]|];
    try (exists []; split; [reflexivity|simpl; lia]).
  destruct (IH (R code location req)) as (rest & E & Hlen).
  simpl. exists (snd (axios_request R n net (R code location req))).
  split; [reflexivity|]. rewrite E. simpl. lia.
Qed.






Lemma axios_post_wire M R net req :
  exists rest, snd (axios_post M R net req) = req :: rest /\ (length rest <= M)%nat.
Proof.
  unfold axios_post. destruct M; [|apply axios_request_wire].
  exists []. split; [reflexivity|simpl; lia].
Qed.




(** *** The specified verifier *)

(** A verdict [Verified] means every check passed: the Signature header
    parsed and names the four headers, the Date is within the skew, the
    Digest header is the digest of the body, the key resolved and the
    signature verifies over the canonical string. *)
Lemma verify_sound resolve now req actorUri :
  verify resolve now req = Verified actorUri ->
  exists sig hostH dateH digestH t pem,
    header "Signature" (in_headers req) ≫= parse_signature = Some sig
    /\ forallb (fun h => existsb (String.eqb h) (signedHeaders sig)) signed_header_names = true
    /\ header "Host" (in_headers req) = Some hostH
    /\ header "Date" (in_headers req) = Some dateH
    /\ header "Digest" (in_headers req) = Some digestH
    /\ Date_parse dateH = Some t
    /\ (Z.abs (now - t) <= max_skew)%Z
    /\ digestH = "SHA-256=" +:+ sha256_base64 (in_body req)
    /\ strip_suffix "#main-key" (keyId sig) = Some actorUri
    /\ resolve actorUri = Some pem
    /\ rsa_sha256_verify pem
         (canonicalString (in_method req) (in_path req) hostH dateH
            (sha256_base64 (in_body req)))
         (signatureBase64 sig) = true.
Proof.
  unfold verify. cbv zeta.
  destruct (header "Signature" (in_headers req) ≫= parse_signature) as [sig|];
    [|discriminate].
  destruct (forallb _ signed_header_names) eqn:Hnames; [|discriminate]. cbn [negb].
  destruct (header "Host" (in_headers req)) as [hostH|]; [|discriminate].
  destruct (header "Date" (in_headers req)) as [dateH|]; [|discriminate].
  destruct (header "Digest" (in_headers req)) as [digestH|]; [|discriminate].
  destruct (Date_parse dateH) as [t|] eqn:Ht; [|discriminate].
  destruct (Z.gtb_spec (Z.abs (now - t)) max_skew) as [|Hskew]; [discriminate|].
  destruct (String.eqb_spec ("SHA-256=" +:+ sha256_base64 (in_body req)) digestH)
    as [Hd|]; cbn [negb]; [|discriminate].
  destruct (strip_suffix "#main-key" (keyId sig)) as [uri|] eqn:Huri; [|discriminate].
  destruct (resolve uri) as [pem|] eqn:Hres; [|discriminate].
  destruct (rsa_sha256_verify pem _ (signatureBase64 sig)) eqn:Hv; [|discriminate].
  intros [= <-]. exists sig, hostH, dateH, digestH, t, pem.
  repeat split; first [assumption | reflexivity | now symmetry | lia].
Qed.

(** A request that passes the header checks and whose Date is off by more
    than five minutes is rejected as stale, whatever its signature. *)
Lemma verify_stale resolve now req sig hostH dateH digestH t :
  header "Signature" (in_headers req) ≫= parse_signature = Some sig ->
  forallb (fun h => existsb (String.eqb h) (signedHeaders sig)) signed_header_names = true ->
  header "Host" (in_headers req) = Some hostH ->
  header "Date" (in_headers req) = Some dateH ->
  header "Digest" (in_headers req) = Some digestH ->
  Date_parse dateH = Some t ->
  (Z.abs (now - t) > max_skew)%Z ->
  verify resolve now req = Rejected StaleRequest.
Proof.
  intros Hsig Hnames Hh Hd Hg Ht Hskew. unfold verify.
  rewrite Hsig, Hnames, Hh, Hd, Hg, Ht. cbn [negb].
  destruct (Z.gtb_spec (Z.abs (now - t)) max_skew); [reflexivity|lia].
Qed.

(** *** The signed request *)

Lemma parse_param_param name v :
  contains_char "=" name = false -> parse_param (param name v) = Some (name, v).
Proof.
  intros Hn. unfold parse_param, param.
  change ("=" +:+ dq +:+ v +:+ dq) with (String "=" (String "034" (v +:+ String "034" ""))).
  rewrite cut_at_app by assumption. simpl.
  now rewrite drop_last_app.
Qed.

(** The parser reads back what [buildHeader] wrote, whatever the key
    identifier is. *)
Lemma parse_signature_build k sg :
  contains_char "," sg = false ->
  parse_signature (buildHeader k signed_header_names sg)
  = Some (mkSignatureHeader k "rsa-sha256" signed_header_names sg).
Proof.
  intros Hsg. unfold parse_signature, buildHeader.
  change (join "," [param "keyId" k; param "algorithm" "rsa-sha256";
                    param "headers" (join " " signed_header_names);
                    param "signature" sg])
    with (param "keyId" k
          +:+ String ","%char
                (join (String ","%char "")
                   [param "algorithm" "rsa-sha256";
                    param "headers" (join " " signed_header_names);
                    param "signature" sg])).
  rewrite split_on_app_sep, split_on_join.
  - cbv zeta. rewrite length_app.
    replace (length (split_on "," (param "keyId" k)) + length _ - 3)%nat
      with (length (split_on "," (param "keyId" k))) by (simpl; lia).
    rewrite drop_app_length, take_app_length.
    change "," with (String ","%char "") at 1. rewrite join_split_on.
    rewrite !parse_param_param by reflexivity. reflexivity.
  - discriminate.
  - unfold param. repeat constructor; rewrite !contains_char_app;
      rewrite ?Hsg; reflexivity.
Qed.


Lemma signed_request_ok BASE_URL db now name inboxUrl activity key u :
  db !! name ≫= privateKey = Some key ->
  key <> "" ->
  parseURL inboxUrl = Some u ->
  signed_request BASE_URL db now name inboxUrl activity
  = Ok {| http_method := "POST";
          http_url := inboxUrl;
          http_headers :=
            request_headers BASE_URL name u (toUTCString now)
              (sha256_base64 (JSON_stringify (VObj activity)))
              (rsa_sha256_sign key
                 (signatureHeaders (pathname u) (host u) (toUTCString now)
                    (sha256_base64 (JSON_stringify (VObj activity)))));
          http_body := JSON_stringify (VObj activity) |}.
Proof.
  intros Hkey Hne Hu. unfold signed_request. rewrite exec_elevated_private, Hkey.
  destruct (String.eqb_spec key ""); [contradiction|]. now rewrite Hu.
Qed.

(** The first request that a run of [sendSignedRequest] puts on the wire
    is the signed one. *)
Lemma sendSignedRequest_first M R BASE_URL db now name inboxUrl activity net req :
  signed_request BASE_URL db now name inboxUrl activity = Ok req ->
  exists rest,
    snd (sendSignedRequest M R BASE_URL db now name inboxUrl activity net) = req :: rest.
Proof.
  intros E. unfold sendSignedRequest. rewrite E.
  destruct (axios_post_wire M R net req) as (rest & Ew & _). eauto.
Qed.

(** C4: for a sender with a private key and an inbox address that parses,
    [sendSignedRequest] POSTs to that address; the body on the wire is the
    serialised activity, the Digest header is [SHA-256=] followed by the
    base64 SHA-256 of exactly that body, [digest] is among the signed
    headers, and the text under the signature of the Signature header
    ends with that digest line. *)
Theorem digest_binds_body
    (maxRedirects : nat) (redirected : Z -> string -> http_request -> http_request)
    BASE_URL db now name inboxUrl activity (net : http_request -> answer) key u :
  db !! name ≫= privateKey = Some key ->
  key <> "" ->
  parseURL inboxUrl = Some u ->
  exists req rest,
    snd (sendSignedRequest maxRedirects redirected BASE_URL db now name inboxUrl
           activity net) = req :: rest
    /\ http_method req = "POST"
    /\ http_url req = inboxUrl
    /\ http_body req = JSON_stringify (VObj activity)
    /\ header "Digest" (http_headers req)
       = Some ("SHA-256=" +:+ sha256_base64 (http_body req))
    /\ In "digest" signed_header_names
    /\ header "Signature" (http_headers req)
       = Some (buildHeader (keyId_of BASE_URL name) signed_header_names
                 (rsa_sha256_sign key
                    (signatureHeaders (pathname u) (host u) (toUTCString now)
                       (sha256_base64 (http_body req)))))
    /\ exists before,
         signatureHeaders (pathname u) (host u) (toUTCString now)
           (sha256_base64 (http_body req))
         = before +:+ nl +:+ "digest: SHA-256=" +:+ sha256_base64 (http_body req).
Proof.
  intros Hkey Hne Hu.
  pose proof (signed_request_ok BASE_URL db now name inboxUrl activity key u Hkey Hne Hu)
    as Hreq.
  destruct (sendSignedRequest_first maxRedirects redirected BASE_URL db now name
              inboxUrl activity net _ Hreq) as (rest & Hwire).
  eexists. exists rest. split; [exact Hwire|]. cbn [http_method http_url http_body http_headers].
  repeat split.
  - simpl. tauto.
  - unfold signatureHeaders.
    exists ("(request-target): post " +:+ pathname u +:+ nl +:+
            "host: " +:+ host u +:+ nl +:+
            "date: " +:+ toUTCString now).
    now rewrite !append_assoc.
Qed.

(** C2: the request that [sendSignedRequest] POSTs for an actor with a
    generated keypair is accepted by the verifier that resolves the actor
    to its public key, when it arrives within the clock skew, whatever the
    actor's name is. Assumed of the libraries: verification accepts what
    signing with the matching generated key produced, a generated private
    key is not empty, a base64 signature holds no comma, and [Date.parse]
    reads back what [toUTCString] printed; and the inbox address
    parses. *)
Theorem signed_request_verifies
    (maxRedirects : nat) (redirected : Z -> string -> http_request -> http_request)
    BASE_URL db now_s now_v name inboxUrl activity (net : http_request -> answer)
    (user : User) (pub key : string) (rnd t : Z) (u : URL)
    (resolve : string -> option string) :
  db !! name = Some user ->
  publicKey user = Some pub ->
  privateKey user = Some key ->
  generateKeyPairSync "rsa" rsa_options rnd = (pub, key) ->
  (forall r text,
     rsa_sha256_verify (fst (generateKeyPairSync "rsa" rsa_options r)) text
       (rsa_sha256_sign (snd (generateKeyPairSync "rsa" rsa_options r)) text) = true) ->
  (forall r, snd (generateKeyPairSync "rsa" rsa_options r) <> "") ->
  (forall text, contains_char "," (rsa_sha256_sign key text) = false) ->
  resolve (BASE_URL +:+ "/users/" +:+ name) = Some pub ->
  Date_parse (toUTCString now_s) = Some t ->
  (Z.abs (now_v - t) <= max_skew)%Z ->
  parseURL inboxUrl = Some u ->
  exists req rest r,
    snd (sendSignedRequest maxRedirects redirected BASE_URL db now_s name inboxUrl
           activity net) = req :: rest
    /\ receive req = Some r
    /\ verify resolve now_v r = Verified (BASE_URL +:+ "/users/" +:+ name).
Proof.
  intros Hdb Hpub Hpriv Hgen Hrsa Hpem Hb64 Hres Hdate Hskew Hu.
  assert (Hkey : db !! name ≫= privateKey = Some key) by (now rewrite Hdb).
  assert (Hne : key <> "").
  { specialize (Hpem rnd). now rewrite Hgen in Hpem. }
  pose proof (signed_request_ok BASE_URL db now_s name inboxUrl activity key u Hkey Hne Hu)
    as Hreq.
  destruct (sendSignedRequest_first maxRedirects redirected BASE_URL db now_s name
              inboxUrl activity net _ Hreq) as (rest & Hwire).
  specialize (Hrsa rnd). rewrite Hgen in Hrsa. simpl in Hrsa.
  eexists. exists rest. eexists. split; [exact Hwire|].
  unfold receive. simpl http_url. rewrite Hu. simpl.
  split; [reflexivity|].
  unfold verify. simpl in_headers.
  change (header "Signature" (request_headers ?b ?n ?u ?d ?g ?sg))
    with (Some (buildHeader (keyId_of b n) signed_header_names sg)).
  simpl mbind. unfold option_bind.
  rewrite parse_signature_build by auto.
  simpl.
  rewrite Hdate.
  destruct (Z.gtb_spec (Z.abs (now_v - t)) max_skew) as [Hgt|_]; [lia|].
  rewrite String.eqb_refl. simpl.
  unfold keyId_of.
  replace (BASE_URL +:+ "/users/" +:+ name +:+ "#main-key")
    with ((BASE_URL +:+ "/users/" +:+ name) +:+ "#main-key")
    by (now rewrite !append_assoc).
  rewrite strip_suffix_app, Hres.
  rewrite <- signatureHeaders_canonical, Hrsa. reflexivity.
Qed.

End KeyFacts.

(** ** Runs on concrete requests *)

Section Runs.
Import Str KeyManagement Spec Samples.
#[local] Arguments String.append !_ _ / : simpl nomatch.

Lemma digits_no_comma d : contains_char "," (NilEmpty.string_of_uint d) = false.
Proof. induction d; simpl; try reflexivity; exact IHd. Qed.

Lemma dec_no_comma n : contains_char "," (Toy.dec n) = false.
Proof.
  unfold Toy.dec, NilZero.string_of_uint.
  destruct (N.to_uint (Z.to_N n)); try reflexivity; apply digits_no_comma.
Qed.

Lemma substring_all s : String.substring 0 (String.length s) s = s.
Proof. induction s as [|c s IH]; simpl; [reflexivity|now rewrite IH]. Qed.

Lemma toy_serial tag1 tag2 tag3 s :
  Toy.serial (String tag1 (String tag2 (String tag3 s))) = s.
Proof.
  unfold Toy.serial.
  change (String.length (String tag1 (String tag2 (String tag3 s))) - 3)%nat
    with (String.length s - 0)%nat.
  rewrite Nat.sub_0_r. apply substring_all.
Qed.

Lemma toy_sign_check r text :
  @rsa_sha256_verify Toy.primitives
    (fst (@generateKeyPairSync Toy.primitives "rsa" rsa_options r)) text
    (@rsa_sha256_sign Toy.primitives
       (snd (@generateKeyPairSync Toy.primitives "rsa" rsa_options r)) text) = true.
Proof.
  simpl. unfold Toy.check, Toy.sign.
  change ("PUB" +:+ Toy.dec r) with (String "P" (String "U" (String "B" (Toy.dec r)))).
  change ("KEY" +:+ Toy.dec r) with (String "K" (String "E" (String "Y" (Toy.dec r)))).
  rewrite !toy_serial. apply String.eqb_refl.
Qed.

Lemma toy_keys_not_empty r :
  fst (@generateKeyPairSync Toy.primitives "rsa" rsa_options r) <> ""
  /\ snd (@generateKeyPairSync Toy.primitives "rsa" rsa_options r) <> "".
Proof. split; simpl; discriminate. Qed.

Lemma pre_save_idempotent_witness :
  rsa_options = KeygenOptions 2048 (Encoding "spki" "pem") (Encoding "pkcs8" "pem")
  /\ (truthy (publicKey (new_user BASE "alice"))
        && truthy (privateKey (new_user BASE "alice")) = false ->
      publicKey alice = Some "PUB7" /\ privateKey alice = Some "KEY7")
  /\ (truthy (publicKey (new_user BASE "alice"))
        && truthy (privateKey (new_user BASE "alice")) = true ->
      alice = new_user BASE "alice")
  /\ @pre_save Toy.primitives 8 alice = alice.
Proof.
  exact (@pre_save_idempotent Toy.primitives 7 8 (new_user BASE "alice")
           toy_keys_not_empty).
Defined.

(** C7, at the input that refutes it: alice has the keypair PUB7/KEY7.
    Re-saving her after a default read generates again, because the
    document read that way has no [privateKey], and PUB8/KEY8 replaces
    the stored pair; the migration step, which reads [+privateKey] first,
    leaves her keys alone. *)
Theorem resave_replaces_keys :
  db0 !! "alice" ≫= publicKey = Some "PUB7"
  /\ db0 !! "alice" ≫= privateKey = Some "KEY7"
  /\ @resave Toy.primitives 8 "alice" db0 !! "alice" ≫= publicKey = Some "PUB8"
  /\ @resave Toy.primitives 8 "alice" db0 !! "alice" ≫= privateKey = Some "KEY8"
  /\ @migrate_user Toy.primitives 8 9 "alice" db0 = db0.
Proof.
  repeat split; vm_compute; reflexivity.
Qed.


Lemma digest_binds_body_witness :
  exists req rest,
    snd (@sendSignedRequest Toy.primitives 5 same_request_to BASE db0 t0 "alice"
           bob_inbox (follow alice_uri bob_uri) moved_once) = req :: rest
    /\ http_method req = "POST"
    /\ http_url req = bob_inbox
    /\ http_body req = @JSON_stringify Toy.primitives (VObj (follow alice_uri bob_uri))
    /\ header "Digest" (http_headers req)
       = Some ("SHA-256=" +:+ @sha256_base64 Toy.primitives (http_body req))
    /\ In "digest" signed_header_names
    /\ header "Signature" (http_headers req)
       = Some (buildHeader (keyId_of BASE "alice") signed_header_names
                 (@rsa_sha256_sign Toy.primitives "KEY7"
                    (signatureHeaders "/users/bob/inbox" "remote.example"
                       (@toUTCString Toy.primitives t0)
                       (@sha256_base64 Toy.primitives (http_body req)))))
    /\ exists before,
         signatureHeaders "/users/bob/inbox" "remote.example"
           (@toUTCString Toy.primitives t0)
           (@sha256_base64 Toy.primitives (http_body req))
         = before +:+ nl +:+ "digest: SHA-256="
           +:+ @sha256_base64 Toy.primitives (http_body req).
Proof.
  apply (@digest_binds_body Toy.primitives 5 same_request_to BASE db0 t0 "alice"
           bob_inbox (follow alice_uri bob_uri) moved_once "KEY7"
           (mkURL "remote.example" "/users/bob/inbox")).
  - reflexivity.
  - discriminate.
  - reflexivity.
Defined.

Lemma signed_request_verifies_witness :
  exists req rest r,
    snd (@sendSignedRequest Toy.primitives 5 same_request_to BASE db0 t0 "alice"
           bob_inbox (follow alice_uri bob_uri) moved_once) = req :: rest
    /\ @receive Toy.primitives req = Some r
    /\ @verify Toy.primitives resolver (t0 + minutes 4) r = Verified alice_uri.
Proof.
  apply (@signed_request_verifies Toy.primitives 5 same_request_to BASE db0 t0
           (t0 + minutes 4) "alice" bob_inbox (follow alice_uri bob_uri) moved_once
           alice "PUB7" "KEY7" 7 t0 (mkURL "remote.example" "/users/bob/inbox")
           resolver).
  - reflexivity.
  - reflexivity.
  - reflexivity.
  - reflexivity.
  - intros r text. apply toy_sign_check.
  - intros r. apply toy_keys_not_empty.
  - intros text. apply (dec_no_comma (Toy.checksum text)).
  - reflexivity.
  - reflexivity.
  - vm_compute. discriminate.
  - reflexivity.
Defined.



(** The inbox handler never looks at the request it received. *)
Lemma inbox_ignores_request db name req req' activity :
  inbox db name req activity = inbox db name req' activity.
Proof. reflexivity. Qed.

Lemma inbox_adds_follower db name u req activity :
  db !! name = Some u ->
  fst (inbox db name req activity) !! name
  = Some (add_follower (follow_actor activity) u).
Proof. intros Hu. unfold inbox. simpl. now rewrite lookup_alter_eq, Hu. Qed.

(** C3, at the input that refutes it: a Follow without any Signature
    header, which every verifier built on the specification rejects as
    malformed, makes the inbox add bob to alice's followers and answer
    with an Accept. *)
Theorem inbox_accepts_unsigned :
  (forall (P : Primitives) resolve now,
     @verify P resolve now unsigned_follow = Rejected MalformedSignature)
  /\ (followers <$> db0 !! "alice") = Some []
  /\ (followers <$> fst (inbox db0 "alice" unsigned_follow bob_follows_alice) !! "alice")
     = Some [bob_uri]
  /\ snd (inbox db0 "alice" unsigned_follow bob_follows_alice)
     = [Outgoing "alice" bob_uri "Accept"].
Proof.
  split; [reflexivity|]. split; [reflexivity|]. split; [|reflexivity].
  now rewrite (inbox_adds_follower db0 "alice" alice).
Qed.

(** C5, at the input that refutes it: bob's request, signed six minutes
    before it arrives. The specified verifier answers [StaleRequest] (and
    accepts the same request four minutes after signing); the inbox, which
    never reads the Date header, adds bob to alice's followers. *)
Theorem inbox_accepts_stale_date :
  @verify Toy.primitives resolver (t0 + minutes 6) (bob_request t0)
  = Rejected StaleRequest
  /\ @verify Toy.primitives resolver (t0 + minutes 4) (bob_request t0)
     = Verified bob_uri
  /\ header "Date" (in_headers (bob_request t0)) = Some (@toUTCString Toy.primitives t0)
  /\ (followers <$> fst (inbox db0 "alice" (bob_request t0) bob_follows_alice) !! "alice")
     = Some [bob_uri].
Proof.
  split; [vm_compute; reflexivity|]. split; [vm_compute; reflexivity|].
  split; [vm_compute; reflexivity|].
  now rewrite (inbox_adds_follower db0 "alice" alice).
Qed.

End Runs.

(** * Further properties of the pages and of the key management *)

(** ** The followers page *)

Section FollowersFacts.
Import JS Str FollowersPage FollowersView.
#[local] Arguments String.append !_ _ / : simpl nomatch.

Lemma fetchCollection_try_inv data c :
  fetchCollection_try (Resolved data) = Ok c ->
  exists raw,
    normalize_all raw = Ok (items c)
    /\ (raw = prop data "orderedItems"
        \/ raw = prop (prop data "first") "orderedItems"
        \/ raw = prop data "items"
        \/ raw = data
        \/ raw = VArr []).
Proof.
  unfold fetchCollection_try.
  destruct (get data "orderedItems") as [oi|] eqn:Hoi; [|discriminate].
  unfold get in Hoi. destruct (nullish data) eqn:Hn; [discriminate|].
  injection Hoi as <-. cbn [mbind result_bind].
  unfold get. rewrite Hn. cbn [mbind result_bind].
  destruct (truthy (prop data "orderedItems")).
  { cbn. destruct (normalize_all (prop data "orderedItems")) as [ns|] eqn:E;
      [|discriminate]. intros [= <-]. eexists. split; [exact E|]. auto. }
  destruct (truthy (get_opt (prop data "first") "orderedItems")).
  { cbn. destruct (normalize_all (prop (prop data "first") "orderedItems")) as [ns|] eqn:E;
      [|discriminate]. intros [= <-]. eexists. split; [exact E|]. auto. }
  destruct (truthy (prop data "items")).
  { cbn. destruct (normalize_all (prop data "items")) as [ns|] eqn:E;
      [|discriminate]. intros [= <-]. eexists. split; [exact E|]. auto. }
  destruct data as [| |b|n|s|xs|fields]; try discriminate Hn; cbn; intros [= <-].
  1-3, 5: exists (VArr []); split; [reflexivity|do 4 right; reflexivity].
  exists (VArr xs). split; [reflexivity|do 3 right; left; reflexivity].
Qed.

Lemma fetchCollection_items_inv res y :
  In y (items (fetchCollection res)) ->
  exists data xs x,
    res = Resolved data
    /\ (VArr xs = prop data "orderedItems"
        \/ VArr xs = prop (prop data "first") "orderedItems"
        \/ VArr xs = prop data "items"
        \/ VArr xs = data)
    /\ In x xs
    /\ y = normalizeItem x
    /\ not_null y = true.
Proof.
  unfold fetchCollection.
  destruct (fetchCollection_try res) as [c|e] eqn:E; [|intros []].
  destruct res as [err|data]; [discriminate|].
  apply fetchCollection_try_inv in E as (raw & Hn & Hraw).
  destruct raw as [| | | | |xs|]; try discriminate Hn.
  injection Hn as Hitems. rewrite <- Hitems.
  intros [Hy Hnn]%List.filter_In. apply List.in_map_iff in Hy as (x & <- & Hx).
  exists data, xs, x. repeat split; try assumption.
  destruct Hraw as [->|[->|[->|[->|Hnil]]]]; auto.
  injection Hnil as ->. destruct Hx.
Qed.

(** Every entry of the returned list is the normal form of an element of
    one of the four arrays the response can carry, and is not [null]:
    [fetchCollection] never invents an entry. *)
Theorem fetchCollection_items_from_response res y :
  In y (items (fetchCollection res)) ->
  exists data xs x,
    res = Resolved data
    /\ (VArr xs = prop data "orderedItems"
        \/ VArr xs = prop (prop data "first") "orderedItems"
        \/ VArr xs = prop data "items"
        \/ VArr xs = data)
    /\ In x xs
    /\ y = normalizeItem x
    /\ not_null y = true.
Proof. apply fetchCollection_items_inv. Qed.

Lemma fetchCollection_items_from_response_witness :
  exists data xs x,
    Resolved (VArr [VStr "https://remote.example/users/bob"]) = Resolved data
    /\ (VArr xs = prop data "orderedItems"
        \/ VArr xs = prop (prop data "first") "orderedItems"
        \/ VArr xs = prop data "items"
        \/ VArr xs = data)
    /\ In x xs
    /\ VStr "https://remote.example/users/bob" = normalizeItem x
    /\ not_null (VStr "https://remote.example/users/bob") = true.
Proof.
  apply (fetchCollection_items_from_response
           (Resolved (VArr [VStr "https://remote.example/users/bob"]))
           (VStr "https://remote.example/users/bob")).
  simpl. left. reflexivity.
Defined.

(** When every object among the elements of the response arrays has only
    string properties, every returned entry is a string. *)
Theorem fetchCollection_strings res :
  (forall data xs fields,
     res = Resolved data ->
     VArr xs = prop data "orderedItems"
     \/ VArr xs = prop (prop data "first") "orderedItems"
     \/ VArr xs = prop data "items"
     \/ VArr xs = data ->
     In (VObj fields) xs ->
     Forall (fun kv => is_string (snd kv) = true) fields) ->
  Forall (fun y => is_string y = true) (items (fetchCollection res)).
Proof.
  intros Htyped. apply List.Forall_forall. intros y Hy.
  apply fetchCollection_items_inv in Hy
    as (data & xs & x & Hres & Hxs & Hx & -> & Hnn).
  destruct x as [| | | |s|ys|fields]; try discriminate Hnn; [reflexivity|].
  destruct (normalizeItem_string_fields fields (Htyped data xs fields Hres Hxs Hx))
    as [Hnull|Hstr]; [|exact Hstr].
  rewrite Hnull in Hnn. discriminate Hnn.
Qed.

Lemma fetchCollection_strings_witness :
  Forall (fun y => is_string y = true)
    (items (fetchCollection
       (Resolved (VObj [("items", VArr [VStr "https://a.example/users/u1";
                                        VObj [("id", VStr "https://a.example/users/u2")];
                                        VNum 7])])))).
Proof.
  apply fetchCollection_strings.
  intros data xs fields [= <-] Hxs Hin. simpl in Hxs.
  destruct Hxs as [Hxs|[Hxs|[Hxs|Hxs]]]; try discriminate Hxs.
  injection Hxs as ->. simpl in Hin.
  destruct Hin as [Hin|[Hin|[Hin|[]]]]; try discriminate Hin.
  injection Hin as <-. repeat constructor.
Defined.

(** A bare array is normalised element by element, and [total] is the
    length of the array as received: it also counts the elements that
    normalisation drops. *)
Theorem fetchCollection_bare_array xs :
  fetchCollection (Resolved (VArr xs))
  = Collection (List.filter not_null (List.map normalizeItem xs))
      (VNum (Z.of_nat (List.length xs)))
  /\ (List.length (items (fetchCollection (Resolved (VArr xs)))) <= List.length xs)%nat.
Proof.
  split; [reflexivity|]. simpl.
  etransitivity; [apply List.filter_length_le|]. now rewrite List.length_map.
Qed.

(** A response that is an object without a truthy [orderedItems],
    [first.orderedItems] or [items] (a paged collection whose [first] is a
    link, say) gives the empty list with total 0, whatever its
    [totalItems] says. *)
Theorem fetchCollection_unrecognised data :
  nullish data = false ->
  truthy (prop data "orderedItems") = false ->
  truthy (get_opt (prop data "first") "orderedItems") = false ->
  truthy (prop data "items") = false ->
  (forall xs, data <> VArr xs) ->
  fetchCollection (Resolved data) = Collection [] (VNum 0).
Proof.
  intros Hn Ho Hf Hi Ha. unfold fetchCollection, fetchCollection_try, get.
  rewrite Hn. cbn [mbind result_bind]. rewrite Ho, Hf, Hi.
  destruct data; try reflexivity. now contradiction (Ha xs).
Qed.

Lemma fetchCollection_unrecognised_witness :
  fetchCollection
    (Resolved (VObj [ ("type", VStr "OrderedCollection");
                      ("totalItems", VNum 123);
                      ("first", VStr "https://remote.example/users/bob/followers?page=1") ]))
  = Collection [] (VNum 0).
Proof.
  apply fetchCollection_unrecognised; try reflexivity. discriminate.
Defined.

(** A truthy [orderedItems] that is not an array makes [items.map] throw;
    the catch block answers with the empty list and total 0. *)
Theorem fetchCollection_not_an_array data :
  nullish data = false ->
  truthy (prop data "orderedItems") = true ->
  (forall xs, prop data "orderedItems" <> VArr xs) ->
  fetchCollection (Resolved data) = Collection [] (VNum 0).
Proof.
  intros Hn Ho Ha. unfold fetchCollection, fetchCollection_try, get.
  rewrite Hn. cbn [mbind result_bind]. rewrite Ho. cbn [mbind result_bind].
  destruct (prop data "orderedItems") as [| | | | |xs|]; try reflexivity.
  now contradiction (Ha xs).
Qed.

Lemma fetchCollection_not_an_array_witness :
  fetchCollection
    (Resolved (VObj [ ("totalItems", VNum 2);
                      ("orderedItems", VStr "https://remote.example/users/bob/items") ]))
  = Collection [] (VNum 0).
Proof.
  apply fetchCollection_not_an_array; try reflexivity. discriminate.
Defined.

(** [fetchData] always ends with [loading] off and no error: a request
    that fails is not told apart from an empty collection. When both
    requests are rejected the page shows no followers, nobody followed and
    totals of 0. *)
Theorem fetchData_failure_is_empty env username net st :
  (forall address, exists err, net address = Rejected err) ->
  fetchData env username net st = Page [] [] false None (VNum 0) (VNum 0)
  /\ (forall net', error (fetchData env username net' st) = None
                   /\ loading (fetchData env username net' st) = false).
Proof.
  intros Hrej. split; [|intros net'; split; reflexivity].
  unfold fetchData. cbn [mbind result_bind].
  destruct (Hrej (baseUrl env +:+ "/users/" +:+ username +:+ "/followers")) as [e1 ->].
  destruct (Hrej (baseUrl env +:+ "/users/" +:+ username +:+ "/following")) as [e2 ->].
  reflexivity.
Qed.

Lemma fetchData_failure_is_empty_witness :
  fetchData None "alice" (fun _ => Rejected "Network Error") initial_page
  = Page [] [] false None (VNum 0) (VNum 0)
  /\ (forall net', error (fetchData None "alice" net' initial_page) = None
                   /\ loading (fetchData None "alice" net' initial_page) = false).
Proof.
  apply (fetchData_failure_is_empty None "alice" (fun _ => Rejected "Network Error")
           initial_page).
  intros address. exists "Network Error". reflexivity.
Defined.

(** *** Profile addresses and user names *)

Lemma strip_no_trailing_slash s t : strip_trailing_slashes s <> t +:+ "/".
Proof.
  revert t. induction s as [|c r IH]; intros t; simpl.
  - destruct t; discriminate.
  - destruct (Ascii.eqb_spec c "/") as [->|Hc]; simpl.
    + destruct (String.eqb_spec (strip_trailing_slashes r) "") as [E|E].
      * destruct t; discriminate.
      * destruct t as [|c' t']; simpl.
        -- intros [= E']. contradiction.
        -- intros [= _ E']. now apply (IH t').
    + destruct t as [|c' t']; simpl.
      * intros [= E _]. contradiction.
      * intros [= _ E']. now apply (IH t').
Qed.

Lemma strip_keeps_prefix s :
  exists slashes,
    strip_trailing_slashes slashes = "" /\ s = strip_trailing_slashes s +:+ slashes.
Proof.
  induction s as [|c r (sl & Hsl & Hr)]; [now exists ""|]. simpl.
  destruct (Ascii.eqb_spec c "/") as [->|Hc]; simpl.
  - destruct (String.eqb_spec (strip_trailing_slashes r) "") as [E|E].
    + exists (String "/" r). simpl. rewrite E. simpl. auto.
    + exists sl. simpl. now rewrite <- Hr.
  - exists sl. simpl. now rewrite <- Hr.
Qed.

Lemma strip_app a b :
  strip_trailing_slashes b <> "" ->
  strip_trailing_slashes (a +:+ b) = a +:+ strip_trailing_slashes b.
Proof.
  intros Hb. induction a as [|c a IH]; [reflexivity|]. simpl. rewrite IH.
  destruct (String.eqb_spec (a +:+ strip_trailing_slashes b) "") as [E|_].
  - destruct a; [simpl in E; contradiction|discriminate E].
  - now rewrite andb_false_r.
Qed.

Lemma strip_name name slashes :
  contains_char "/" name = false ->
  strip_trailing_slashes slashes = "" ->
  strip_trailing_slashes (name +:+ slashes) = name.
Proof.
  intros Hn Hs. induction name as [|c name IH]; [exact Hs|].
  rewrite contains_char_cons in Hn. apply orb_false_elim in Hn as [Hc Hn].
  simpl. rewrite (IH Hn). rewrite Ascii.eqb_sym, Hc. reflexivity.
Qed.

Lemma split_on_parts c s : Forall (fun p => contains_char c p = false) (split_on c s).
Proof.
  induction s as [|x s IH]; simpl; [repeat constructor|].
  destruct (Ascii.eqb_spec x c) as [->|Hx]; [constructor; [reflexivity|exact IH]|].
  destruct (split_on c s) as [|h t]; [repeat constructor|].
  - rewrite contains_char_cons.
    destruct (Ascii.eqb_spec c x); [congruence|reflexivity].
  - apply Forall_cons_1 in IH as [Hh Ht]. constructor; [|exact Ht].
    rewrite contains_char_cons, Hh.
    destruct (Ascii.eqb_spec c x); [congruence|reflexivity].
Qed.

Lemma split_on_app_length c a b :
  (2 <= List.length (split_on c (a +:+ String c b)))%nat.
Proof.
  induction a as [|x a IH]; simpl.
  - rewrite Ascii.eqb_refl. simpl.
    destruct (split_on c b) eqn:E; [now apply split_on_nonempty in E|simpl; lia].
  - destruct (Ascii.eqb x c); simpl; [lia|].
    destruct (split_on c (a +:+ String c b)); simpl in *; lia.
Qed.

Lemma last_split_on_app c a b d :
  List.last (split_on c (a +:+ String c b)) d = List.last (split_on c b) d.
Proof.
  induction a as [|x a IH]; simpl.
  - rewrite Ascii.eqb_refl.
    destruct (split_on c b) eqn:E; [now apply split_on_nonempty in E|reflexivity].
  - pose proof (split_on_app_length c a b) as Hlen.
    destruct (split_on c (a +:+ String c b)) as [|h [|h' t]] eqn:E;
      simpl in Hlen; try lia.
    destruct (Ascii.eqb x c); exact IH.
Qed.

Section ProfileFacts.
Variable URL_new : string -> option location.

(** The user name shown for an entry is never empty and holds no slash,
    whatever the address is and whether or not it parses; hence the same
    for every rendered entry. *)
Theorem getUsernameFromUrl_nonempty url :
  getUsernameFromUrl URL_new url <> ""
  /\ contains_char "/" (getUsernameFromUrl URL_new url) = false
  /\ (forall currentUser username,
        uname (renderUserItem URL_new currentUser username url) <> ""
        /\ contains_char "/" (uname (renderUserItem URL_new currentUser username url))
           = false).
Proof.
  assert (Hall : forall u,
             getUsernameFromUrl URL_new u <> ""
             /\ contains_char "/" (getUsernameFromUrl URL_new u) = false).
  { intros u. unfold getUsernameFromUrl.
    set (parts := split_on "/" (cleanProfileUrl URL_new u)).
    destruct (String.eqb_spec (List.last parts "") "") as [E|E];
      [split; [discriminate|reflexivity]|].
    split; [exact E|].
    assert (Hp : Forall (fun p => contains_char "/" p = false) parts)
      by apply split_on_parts.
    clearbody parts. induction Hp as [|p [|q rest] Hp Hrest IH]; simpl in *.
    - contradiction.
    - exact Hp.
    - apply IH. exact E. }
  split; [apply Hall|]. split; [apply Hall|].
  intros currentUser username. apply Hall.
Qed.

(** When the address parses, [cleanProfileUrl] is protocol, host and path
    with only the slashes at the end removed (query and fragment are
    dropped): the result ends with no slash. An address that does not
    parse is returned as it is. *)
Theorem cleanProfileUrl_trailing_slashes url u :
  URL_new url = Some u ->
  (forall t, cleanProfileUrl URL_new url <> t +:+ "/")
  /\ exists slashes,
       strip_trailing_slashes slashes = ""
       /\ protocol u +:+ "//" +:+ hostname u +:+ path u
          = cleanProfileUrl URL_new url +:+ slashes.
Proof.
  intros Hu. unfold cleanProfileUrl. rewrite Hu. split.
  - intros t. apply strip_no_trailing_slash.
  - apply strip_keeps_prefix.
Qed.

Lemma cleanProfileUrl_unparsed url :
  URL_new url = None -> cleanProfileUrl URL_new url = url.
Proof. intros Hu. unfold cleanProfileUrl. now rewrite Hu. Qed.

(** The user name of an address whose path ends with [/name], followed by
    any number of slashes, is [name]. *)
Theorem getUsernameFromUrl_last_segment url pr h dir name slashes :
  URL_new url = Some (Location pr h (dir +:+ "/" +:+ name +:+ slashes)) ->
  name <> "" ->
  contains_char "/" name = false ->
  strip_trailing_slashes slashes = "" ->
  getUsernameFromUrl URL_new url = name.
Proof.
  intros Hu Hne Hn Hs. unfold getUsernameFromUrl, cleanProfileUrl. rewrite Hu.
  cbn [protocol hostname path].
  replace (pr +:+ "//" +:+ h +:+ dir +:+ "/" +:+ name +:+ slashes)
    with ((pr +:+ "//" +:+ h +:+ dir +:+ "/") +:+ (name +:+ slashes))
    by (rewrite !append_assoc; reflexivity).
  rewrite strip_app by (rewrite strip_name; assumption).
  rewrite strip_name by assumption.
  replace ((pr +:+ "//" +:+ h +:+ dir +:+ "/") +:+ name)
    with ((pr +:+ "//" +:+ h +:+ dir) +:+ String "/" name)
    by (rewrite !append_assoc; reflexivity).
  rewrite last_split_on_app, split_on_absent by assumption. simpl.
  now destruct (String.eqb_spec name "").
Qed.

End ProfileFacts.

Lemma cleanProfileUrl_trailing_slashes_witness :
  cleanProfileUrl full_URL "https://remote.example/users/bob//?x=1#top"
  = "https://remote.example/users/bob"
  /\ (forall t, cleanProfileUrl full_URL "https://remote.example/users/bob//?x=1#top"
                <> t +:+ "/")
  /\ exists slashes,
       strip_trailing_slashes slashes = ""
       /\ "https:" +:+ "//" +:+ "remote.example" +:+ "/users/bob//"
          = cleanProfileUrl full_URL "https://remote.example/users/bob//?x=1#top"
            +:+ slashes.
Proof.
  split; [reflexivity|].
  apply (cleanProfileUrl_trailing_slashes full_URL
           "https://remote.example/users/bob//?x=1#top"
           (Location "https:" "remote.example" "/users/bob//")).
  reflexivity.
Defined.

Lemma getUsernameFromUrl_last_segment_witness :
  getUsernameFromUrl simple_URL "https://remote.example/users/bob//" = "bob".
Proof.
  apply (getUsernameFromUrl_last_segment simple_URL
           "https://remote.example/users/bob//" "https:" "remote.example"
           "/users" "bob" "//"); try reflexivity. discriminate.
Defined.

End FollowersFacts.

(** ** The feed page: likes *)

Section LikeFacts.
Import FeedPage FeedRender.

Lemma includes_filter_self u l :
  includes u (List.filter (fun id => negb (String.eqb id u)) l) = false.
Proof.
  induction l as [|y l IH]; [reflexivity|]. simpl.
  destruct (String.eqb_spec y u) as [->|Hne]; simpl; [exact IH|].
  unfold includes in *. simpl. rewrite IH.
  destruct (String.eqb_spec u y); [congruence|reflexivity].
Qed.

Lemma includes_filter_other x u l :
  x <> u -> includes x (List.filter (fun id => negb (String.eqb id u)) l) = includes x l.
Proof.
  intros Hne. induction l as [|y l IH]; [reflexivity|]. unfold includes in *. simpl.
  destruct (String.eqb_spec y u) as [->|Hy]; simpl.
  - rewrite IH. destruct (String.eqb_spec x u); [contradiction|reflexivity].
  - now rewrite IH.
Qed.

Lemma includes_app x l u :
  includes x (l ++ [u]) = includes x l || String.eqb x u.
Proof.
  unfold includes. rewrite List.existsb_app. simpl. now rewrite orb_false_r.
Qed.

Lemma filter_absent u l :
  includes u l = false -> List.filter (fun id => negb (String.eqb id u)) l = l.
Proof.
  unfold includes. induction l as [|y l IH]; [reflexivity|]. simpl.
  intros [Hy Hl]%orb_false_elim. rewrite String.eqb_sym, Hy. simpl. now rewrite IH.
Qed.

Lemma filter_present_shorter u l :
  includes u l = true ->
  (List.length (List.filter (fun id => negb (String.eqb id u)) l) < List.length l)%nat.
Proof.
  unfold includes. induction l as [|y l IH]; [discriminate|]. simpl.
  destruct (String.eqb_spec u y) as [<-|Hne]; simpl.
  - intros _. rewrite String.eqb_refl. simpl.
    pose proof (List.filter_length_le (fun id => negb (String.eqb id u)) l). lia.
  - intros Hl. destruct (String.eqb_spec y u); [congruence|]. simpl.
    specialize (IH Hl). lia.
Qed.

Lemma toggle_like_button u p :
  let p' := toggle_like u (_id p) p in
  isLiked u p' = negb (isLiked u p)
  /\ (isLiked u p = false -> likeCount p' = S (likeCount p))
  /\ (isLiked u p = true -> (likeCount p' < likeCount p)%nat).
Proof.
  unfold toggle_like, isLiked, likeCount. rewrite String.eqb_refl. simpl.
  destruct (includes u (default [] (likes p))) eqn:E; simpl.
  - split; [apply includes_filter_self|]. split; [discriminate|].
    intros _. now apply filter_present_shorter.
  - split; [rewrite includes_app, String.eqb_refl; apply orb_true_r|].
    split; [|discriminate]. intros _. rewrite List.length_app. simpl. lia.
Qed.

(** The like button after a like that succeeds: on every post with the
    given [_id] the heart flips, the count grows by one when the post
    becomes liked and shrinks when it becomes unliked; every other post
    is as before. *)
Theorem handleLike_button api srv st postId :
  truthy_opt (token st) = true ->
  truthy_str postId = true ->
  like_ok srv = true ->
  Forall2
    (fun p p' =>
       if String.eqb (_id p) postId then
         isLiked (userId st) p' = negb (isLiked (userId st) p)
         /\ (isLiked (userId st) p = false -> likeCount p' = S (likeCount p))
         /\ (isLiked (userId st) p = true -> (likeCount p' < likeCount p)%nat)
       else p' = p)
    (feed st) (feed (fst (handleLike api srv st postId))).
Proof.
  intros Ht Hp Hok. rewrite handleLike_feed by assumption.
  generalize (feed st) as l. intros l.
  induction l as [|p l IH]; constructor; [|exact IH].
  destruct (String.eqb_spec (_id p) postId) as [<-|Hne].
  - apply toggle_like_button.
  - now apply toggle_like_other.
Qed.

Lemma handleLike_button_witness :
  Forall2
    (fun p p' =>
       if String.eqb (_id p) "p1" then
         isLiked "alice" p' = negb (isLiked "alice" p)
         /\ (isLiked "alice" p = false -> likeCount p' = S (likeCount p))
         /\ (isLiked "alice" p = true -> (likeCount p' < likeCount p)%nat)
       else p' = p)
    sample_feed (feed (fst (handleLike "https://api" (Server true None) signed_in "p1"))).
Proof.
  apply (handleLike_button "https://api" (Server true None) signed_in "p1"); reflexivity.
Defined.

Lemma toggle_like_twice u postId p :
  let p2 := toggle_like u postId (toggle_like u postId p) in
  _id p2 = _id p /\ other p2 = other p
  /\ (forall x, isLiked x p2 = isLiked x p)
  /\ (String.eqb (_id p) postId = true -> isLiked u p = false ->
      default [] (likes p2) = default [] (likes p)).
Proof.
  unfold toggle_like at 2.
  destruct (String.eqb_spec (_id p) postId) as [E|Hne].
  - unfold toggle_like. simpl. rewrite E, String.eqb_refl. simpl.
    unfold isLiked. simpl.
    destruct (includes u (default [] (likes p))) eqn:Hin.
    + rewrite includes_filter_self. repeat split; [|discriminate].
      intros x. rewrite includes_app.
      destruct (String.eqb_spec x u) as [->|Hx].
      * now rewrite Hin, orb_true_r.
      * rewrite includes_filter_other by assumption. apply orb_false_r.
    + rewrite includes_app, String.eqb_refl, orb_true_r.
      assert (Hback : List.filter (fun id => negb (String.eqb id u))
                        (default [] (likes p) ++ [u]) = default [] (likes p)).
      { rewrite List.filter_app. simpl. rewrite String.eqb_refl. simpl.
        rewrite filter_absent by assumption. apply List.app_nil_r. }
      rewrite Hback. repeat split.
  - rewrite toggle_like_other by assumption. repeat split.
Qed.

(** Liking twice in a row (both requests succeed) leaves every post with
    its [_id], its other fields and the same set of likers; a post that
    the user had not liked gets back exactly its list of likes. *)
Theorem handleLike_twice api srv1 srv2 st postId :
  truthy_opt (token st) = true ->
  truthy_str postId = true ->
  like_ok srv1 = true -> like_ok srv2 = true ->
  let st1 := fst (handleLike api srv1 st postId) in
  let st2 := fst (handleLike api srv2 st1 postId) in
  Forall2
    (fun p p2 =>
       _id p2 = _id p /\ other p2 = other p
       /\ (forall x, isLiked x p2 = isLiked x p)
       /\ (String.eqb (_id p) postId = true -> isLiked (userId st) p = false ->
           default [] (likes p2) = default [] (likes p)))
    (feed st) (feed st2).
Proof.
  intros Ht Hp Hok1 Hok2 st1 st2.
  assert (Hst1 : st1 = State (List.map (toggle_like (userId st) postId) (feed st))
                         (token st) (userId st) (loading st) (error st)).
  { unfold st1, handleLike. now rewrite Ht, Hp, Hok1. }
  unfold st2. rewrite handleLike_feed; try assumption; [|now rewrite Hst1].
  rewrite Hst1. simpl. rewrite List.map_map.
  generalize (feed st) as l. intros l.
  induction l as [|p l IH]; constructor; [|exact IH].
  apply toggle_like_twice.
Qed.

Lemma handleLike_twice_witness :
  let st1 := fst (handleLike "https://api" (Server true None) signed_in "p1") in
  let st2 := fst (handleLike "https://api" (Server true None) st1 "p1") in
  Forall2
    (fun p p2 =>
       _id p2 = _id p /\ other p2 = other p
       /\ (forall x, isLiked x p2 = isLiked x p)
       /\ (String.eqb (_id p) "p1" = true -> isLiked "alice" p = false ->
           default [] (likes p2) = default [] (likes p)))
    sample_feed (feed st2).
Proof.
  apply (handleLike_twice "https://api" (Server true None) (Server true None)
           signed_in "p1"); reflexivity.
Defined.

Lemma find_map_toggle u postId l :
  List.find (fun p => String.eqb (_id p) postId) (List.map (toggle_like u postId) l)
  = toggle_like u postId <$> List.find (fun p => String.eqb (_id p) postId) l.
Proof.
  induction l as [|p l IH]; [reflexivity|]. simpl.
  destruct (String.eqb_spec (_id p) postId) as [E|Hne].
  - unfold toggle_like at 1. rewrite <- E, String.eqb_refl. simpl.
    now rewrite String.eqb_refl.
  - rewrite toggle_like_other by assumption.
    destruct (String.eqb_spec (_id p) postId); [contradiction|exact IH].
Qed.

(** The request agrees with what the page shows after it: a POST (like)
    was sent exactly when the first post with that [_id] now shows as
    liked, a DELETE when it shows as not liked. When no post of the feed
    has that [_id] a POST is sent all the same. *)
Theorem handleLike_request_matches_view api srv st postId :
  truthy_opt (token st) = true ->
  truthy_str postId = true ->
  like_ok srv = true ->
  exists m,
    snd (handleLike api srv st postId)
    = [LikeRequest m (api +:+ "/api/posts/" +:+ postId +:+ "/like")]
    /\ match List.find (fun p => String.eqb (_id p) postId)
               (feed (fst (handleLike api srv st postId))) with
       | Some p' =>
           m = "post" /\ isLiked (userId st) p' = true
           \/ m = "delete" /\ isLiked (userId st) p' = false
       | None => m = "post"
       end.
Proof.
  intros Ht Hp Hok. rewrite handleLike_feed by assumption.
  rewrite find_map_toggle.
  unfold handleLike. rewrite Ht, Hp, Hok. simpl.
  destruct (List.find (fun p => String.eqb (_id p) postId) (feed st)) as [p|] eqn:Hf;
    simpl.
  - apply List.find_some in Hf as [_ Hid]. apply String.eqb_eq in Hid. subst postId.
    destruct (toggle_like_button (userId st) p) as (Hflip & _ & _).
    fold (isLiked (userId st) p). rewrite Hflip.
    destruct (isLiked (userId st) p); eexists; (split; [reflexivity|]); simpl; auto.
  - eexists. split; reflexivity.
Qed.

Lemma handleLike_request_matches_view_witness :
  exists m,
    snd (handleLike "https://api" (Server true None) signed_in "p1")
    = [LikeRequest m ("https://api" +:+ "/api/posts/" +:+ "p1" +:+ "/like")]
    /\ match List.find (fun p => String.eqb (_id p) "p1")
               (feed (fst (handleLike "https://api" (Server true None) signed_in "p1"))) with
       | Some p' =>
           m = "post" /\ isLiked "alice" p' = true
           \/ m = "delete" /\ isLiked "alice" p' = false
       | None => m = "post"
       end.
Proof.
  apply (handleLike_request_matches_view "https://api" (Server true None) signed_in "p1");
    reflexivity.
Defined.

(** When the like request fails the feed is fetched again. If that fails
    too, the page keeps the like it had shown in advance and sets the
    error message; if it succeeds, the page shows the server's feed and no
    error. Either way [loading] is off at the end. *)
Theorem handleLike_reload api st postId reply :
  truthy_opt (token st) = true ->
  truthy_str postId = true ->
  let st' := fst (handleLike api (Server false reply) st postId) in
  loading st' = false
  /\ match reply with
     | None =>
         feed st' = List.map (toggle_like (userId st) postId) (feed st)
         /\ error st' = Some "Failed to load feed. Please try again."
     | Some data => feed st' = default [] data /\ error st' = None
     end.
Proof.
  intros Ht Hp. unfold handleLike. rewrite Ht, Hp. simpl.
  unfold fetchFeed. simpl. destruct reply; simpl; auto.
Qed.

Lemma handleLike_reload_witness :
  let st' := fst (handleLike "https://api" (Server false None) signed_in "p2") in
  loading st' = false
  /\ feed st' = List.map (toggle_like "alice" "p2") sample_feed
  /\ error st' = Some "Failed to load feed. Please try again.".
Proof.
  apply (handleLike_reload "https://api" signed_in "p2" None); reflexivity.
Defined.

End LikeFacts.

(** ** The feed page: comments *)

Section CommentFacts.
Import Comments.
Variable api : string.
Variable trim : string -> string.

(** Deleting a comment. Declined at the prompt, nothing happens and
    nothing is sent; when the request fails the list is kept and an alert
    is shown; when it succeeds exactly the comments with that id leave the
    list, the others keep their order, and the rest of the modal state is
    as before. *)
Theorem handleDeleteComment_removes ok commentId st :
  handleDeleteComment api false ok commentId st = (st, [], [])
  /\ handleDeleteComment api true false commentId st
     = (st, [ApiRequest "delete" (api +:+ "/api/comments/" +:+ commentId) None],
        ["Failed to delete comment"])
  /\ let st' := fst (fst (handleDeleteComment api true true commentId st)) in
     (forall c, In c (comments st') <-> In c (comments st) /\ comment_id c <> commentId)
     /\ (exists dropped,
           Forall (fun c => comment_id c = commentId) dropped
           /\ Permutation (comments st) (comments st' ++ dropped))
     /\ List.map comment_id (comments st')
        = List.filter (fun i => negb (String.eqb i commentId))
            (List.map comment_id (comments st))
     /\ (showModal st', selectedPostId st', newComment st',
         editingComment st', editCommentText st')
        = (showModal st, selectedPostId st, newComment st,
           editingComment st, editCommentText st).
Proof.
  split; [reflexivity|]. split; [reflexivity|]. simpl.
  split; [|split; [|split; [|reflexivity]]].
  - intros c. rewrite List.filter_In.
    destruct (String.eqb_spec (comment_id c) commentId); simpl; intuition congruence.
  - exists (List.filter (fun c => String.eqb (comment_id c) commentId) (comments st)).
    split.
    + apply List.Forall_forall. intros c [_ Hc]%List.filter_In.
      now apply String.eqb_eq.
    + induction (comments st) as [|c l IH]; [constructor|]. simpl.
      destruct (String.eqb (comment_id c) commentId); simpl.
      * now apply Permutation_cons_app.
      * now constructor.
  - induction (comments st) as [|c l IH]; [reflexivity|]. simpl.
    destruct (String.eqb (comment_id c) commentId); simpl; now rewrite IH.
Qed.

(** Editing a comment with a text that is not blank and a request that
    succeeds: the list keeps its length, the comments with that id are
    replaced by what the server stored, all others are untouched, and the
    edit box is closed. When the server keeps the id, the ids of the list
    are unchanged. *)
Theorem handleEditComment_replaces stored commentId st :
  trim (editCommentText st) <> "" ->
  let st' := fst (handleEditComment api trim (Some stored) commentId st) in
  List.length (comments st') = List.length (comments st)
  /\ Forall2
       (fun c c' => if String.eqb (comment_id c) commentId then c' = stored else c' = c)
       (comments st) (comments st')
  /\ editingComment st' = None /\ editCommentText st' = ""
  /\ (comment_id stored = commentId ->
      List.map comment_id (comments st') = List.map comment_id (comments st)).
Proof.
  intros Hne. unfold handleEditComment.
  destruct (String.eqb_spec (trim (editCommentText st)) ""); [contradiction|]. simpl.
  split; [apply List.length_map|]. split; [|split; [reflexivity|split; [reflexivity|]]].
  - induction (comments st) as [|c l IH]; constructor; [|exact IH].
    now destruct (String.eqb (comment_id c) commentId).
  - intros Hid. rewrite List.map_map. apply List.map_ext. intros c.
    destruct (String.eqb_spec (comment_id c) commentId); congruence.
Qed.

(** A blank draft or a blank edit sends nothing and changes nothing. *)
Lemma blank_text_is_ignored reply reply' commentId st :
  (trim (newComment st) = "" -> handleCommentSubmit api trim reply st = (st, []))
  /\ (trim (editCommentText st) = "" ->
      handleEditComment api trim reply' commentId st = (st, [])).
Proof.
  unfold handleCommentSubmit, handleEditComment.
  split; intros ->; reflexivity.
Qed.

(** Posting a comment and then deleting the comment the server created
    gives back the list of comments as it was, provided the new id is not
    the id of a comment already shown. *)
Theorem submit_then_delete created st :
  trim (newComment st) <> "" ->
  Forall (fun c => comment_id c <> comment_id created) (comments st) ->
  let st1 := fst (handleCommentSubmit api trim (Some created) st) in
  let st2 := fst (fst (handleDeleteComment api true true (comment_id created) st1)) in
  comments st1 = (comments st ++ [created])%list
  /\ newComment st1 = ""
  /\ comments st2 = comments st.
Proof.
  intros Hne Hfresh. unfold handleCommentSubmit.
  destruct (String.eqb_spec (trim (newComment st)) ""); [contradiction|]. simpl.
  split; [reflexivity|]. split; [reflexivity|].
  rewrite List.filter_app. simpl. rewrite String.eqb_refl. simpl.
  rewrite List.app_nil_r.
  induction Hfresh as [|c l Hc _ IH]; [reflexivity|]. simpl.
  destruct (String.eqb_spec (comment_id c) (comment_id created)); [contradiction|].
  simpl. now rewrite IH.
Qed.

(** Opening the modal for a post never shows the comments of the post
    opened before: the list is the array the server sent, or empty when
    the request fails or the answer is not an array. Closing it always
    gives the initial state. *)
Lemma openCommentModal_replaces reply postId st :
  let st' := fst (openCommentModal api reply postId st) in
  comments st' = default [] (reply ≫= id)
  /\ selectedPostId st' = Some postId
  /\ showModal st' = true
  /\ editingComment st' = None
  /\ closeModal st' = initial_modal.
Proof.
  unfold openCommentModal. destruct reply as [[l|]|]; repeat split.
Qed.

End CommentFacts.

Lemma handleEditComment_replaces_witness :
  let st := Comments.Modal true (Some "p1")
              [Comments.Comment "c1" "first" []; Comments.Comment "c2" "second" []]
              "" (Some "c2") "second, edited" in
  let st' := fst (Comments.handleEditComment "https://api" (fun s => s)
                    (Some (Comments.Comment "c2" "second, edited" [])) "c2" st) in
  List.length (Comments.comments st') = List.length (Comments.comments st)
  /\ Forall2
       (fun c c' => if String.eqb (Comments.comment_id c) "c2"
                    then c' = Comments.Comment "c2" "second, edited" [] else c' = c)
       (Comments.comments st) (Comments.comments st')
  /\ Comments.editingComment st' = None /\ Comments.editCommentText st' = ""
  /\ (Comments.comment_id (Comments.Comment "c2" "second, edited" []) = "c2" ->
      List.map Comments.comment_id (Comments.comments st')
      = List.map Comments.comment_id (Comments.comments st)).
Proof.
  apply (handleEditComment_replaces "https://api" (fun s => s)
           (Comments.Comment "c2" "second, edited" []) "c2"
           (Comments.Modal true (Some "p1")
              [Comments.Comment "c1" "first" []; Comments.Comment "c2" "second" []]
              "" (Some "c2") "second, edited")).
  simpl. discriminate.
Defined.

Lemma submit_then_delete_witness :
  let st := Comments.Modal true (Some "p1") [Comments.Comment "c1" "first" []]
              "nice photo" None "" in
  let created := Comments.Comment "c2" "nice photo" [] in
  let st1 := fst (Comments.handleCommentSubmit "https://api" (fun s => s) (Some created) st) in
  let st2 := fst (fst (Comments.handleDeleteComment "https://api" true true "c2" st1)) in
  Comments.comments st1 = [Comments.Comment "c1" "first" []; created]
  /\ Comments.newComment st1 = ""
  /\ Comments.comments st2 = Comments.comments st.
Proof.
  apply (submit_then_delete "https://api" (fun s => s)
           (Comments.Comment "c2" "nice photo" [])
           (Comments.Modal true (Some "p1") [Comments.Comment "c1" "first" []]
              "nice photo" None "")).
  - simpl. discriminate.
  - repeat constructor. simpl. discriminate.
Defined.

(** ** The feed page: [formatDate] *)

Section TimeFacts.
Import FeedTime.
Variable Date_new : string -> option Z.
Variable toLocaleDateString : Z -> string.

Lemma show_int_negative n : (n < 0)%Z -> exists digits, show_int n = "-" +:+ digits.
Proof.
  intros Hn. unfold show_int. destruct (Z.ltb_spec n 0); [eauto|lia].
Qed.

(** The age of a post or comment: below one hour it is shown in minutes,
    0 to 59; from one hour and below one day in hours, 1 to 23; from one
    day and below a week in days, 1 to 6; from a week on as a calendar
    date. *)
Theorem formatDate_buckets now s date :
  s <> "" -> Date_new s = Some date ->
  let age := (now - date)%Z in
  (0 <= age < 3600000 ->
     formatDate Date_new toLocaleDateString now (Some s)
     = show_int (age / 60000) +:+ "m ago"
     /\ 0 <= age / 60000 < 60)%Z
  /\ (3600000 <= age < 86400000 ->
     formatDate Date_new toLocaleDateString now (Some s)
     = show_int (age / 3600000) +:+ "h ago"
     /\ 1 <= age / 3600000 < 24)%Z
  /\ (86400000 <= age < 604800000 ->
     formatDate Date_new toLocaleDateString now (Some s)
     = show_int (age / 86400000) +:+ "d ago"
     /\ 1 <= age / 86400000 < 7)%Z
  /\ (604800000 <= age ->
     formatDate Date_new toLocaleDateString now (Some s) = toLocaleDateString date)%Z.
Proof.
  intros Hs Hd age. unfold formatDate.
  destruct (String.eqb_spec s ""); [contradiction|]. rewrite Hd. cbv zeta. fold age.
  split; [|split; [|split]]; intros Hage.
  - split; [|Z.div_mod_to_equations; lia].
    destruct (Z.ltb_spec (age / 60000) 60); [reflexivity|].
    exfalso. Z.div_mod_to_equations. lia.
  - split; [|Z.div_mod_to_equations; lia].
    destruct (Z.ltb_spec (age / 60000) 60);
      [exfalso; Z.div_mod_to_equations; lia|].
    destruct (Z.ltb_spec (age / 3600000) 24); [reflexivity|].
    exfalso. Z.div_mod_to_equations. lia.
  - split; [|Z.div_mod_to_equations; lia].
    destruct (Z.ltb_spec (age / 60000) 60);
      [exfalso; Z.div_mod_to_equations; lia|].
    destruct (Z.ltb_spec (age / 3600000) 24);
      [exfalso; Z.div_mod_to_equations; lia|].
    destruct (Z.ltb_spec (age / 86400000) 7); [reflexivity|].
    exfalso. Z.div_mod_to_equations. lia.
  - destruct (Z.ltb_spec (age / 60000) 60);
      [exfalso; Z.div_mod_to_equations; lia|].
    destruct (Z.ltb_spec (age / 3600000) 24);
      [exfalso; Z.div_mod_to_equations; lia|].
    destruct (Z.ltb_spec (age / 86400000) 7);
      [exfalso; Z.div_mod_to_equations; lia|]. reflexivity.
Qed.

(** A date that lies in the future (the clocks of the server and of the
    browser differ) is shown as a negative number of minutes, however far
    ahead it is. *)
Theorem formatDate_future now s date :
  s <> "" -> Date_new s = Some date -> (now < date)%Z ->
  (exists digits,
     formatDate Date_new toLocaleDateString now (Some s)
     = "-" +:+ digits +:+ "m ago")
  /\ formatDate Date_new toLocaleDateString now (Some s)
     = show_int ((now - date) / 60000) +:+ "m ago"
  /\ ((now - date) / 60000 < 0)%Z.
Proof.
  intros Hs Hd Hlt. unfold formatDate.
  destruct (String.eqb_spec s ""); [contradiction|]. rewrite Hd. cbv zeta.
  assert (Hneg : ((now - date) / 60000 < 0)%Z) by (Z.div_mod_to_equations; lia).
  destruct (Z.ltb_spec ((now - date) / 60000) 60); [|lia].
  destruct (show_int_negative _ Hneg) as [digits Hdigits].
  split; [|split; [reflexivity|exact Hneg]].
  exists digits. now rewrite Hdigits.
Qed.

(** A missing or empty date is shown as Recently, a date that does not
    parse as Invalid Date. *)
Lemma formatDate_missing now s :
  formatDate Date_new toLocaleDateString now None = "Recently"
  /\ formatDate Date_new toLocaleDateString now (Some "") = "Recently"
  /\ (s <> "" -> Date_new s = None ->
      formatDate Date_new toLocaleDateString now (Some s) = "Invalid Date").
Proof.
  repeat split. intros Hs Hd. unfold formatDate.
  destruct (String.eqb_spec s ""); [contradiction|]. now rewrite Hd.
Qed.

End TimeFacts.

Lemma formatDate_buckets_witness :
  FeedTime.formatDate MoreSamples.decimal_clock MoreSamples.fixed_day
    1700000300000 (Some "1700000000000")
  = FeedTime.show_int ((1700000300000 - 1700000000000) / 60000) +:+ "m ago"
  /\ (0 <= (1700000300000 - 1700000000000) / 60000 < 60)%Z.
Proof.
  refine (proj1 (formatDate_buckets MoreSamples.decimal_clock MoreSamples.fixed_day
                   1700000300000 "1700000000000" 1700000000000 _ _) _).
  - discriminate.
  - reflexivity.
  - lia.
Defined.

Lemma formatDate_future_witness :
  (exists digits,
     FeedTime.formatDate MoreSamples.decimal_clock MoreSamples.fixed_day
       1700000000000 (Some "1700000180000")
     = "-" +:+ digits +:+ "m ago")
  /\ FeedTime.formatDate MoreSamples.decimal_clock MoreSamples.fixed_day
       1700000000000 (Some "1700000180000")
     = FeedTime.show_int ((1700000000000 - 1700000180000) / 60000) +:+ "m ago"
  /\ ((1700000000000 - 1700000180000) / 60000 < 0)%Z.
Proof.
  apply (formatDate_future MoreSamples.decimal_clock MoreSamples.fixed_day
           1700000000000 "1700000180000" 1700000180000).
  - discriminate.
  - reflexivity.
  - lia.
Defined.

(** ** Key management: migration, registration, the Actor document *)

Section MaintenanceFacts.
Import Str KeyManagement Maintenance.
Context `{Primitives}.

Lemma with_keys_username rnd u : username (with_keys rnd u) = username u.
Proof. unfold with_keys. now destruct (truthy (publicKey u) && truthy (privateKey u)). Qed.

Lemma with_keys_truthy rnd u :
  (forall r, fst (generateKeyPairSync "rsa" rsa_options r) <> ""
             /\ snd (generateKeyPairSync "rsa" rsa_options r) <> "") ->
  truthy (publicKey (with_keys rnd u)) && truthy (privateKey (with_keys rnd u)) = true.
Proof.
  intros Hgen. unfold with_keys.
  destruct (truthy (publicKey u) && truthy (privateKey u)) eqn:E; [exact E|].
  destruct (Hgen (rnd (username u))) as [Hp Hk].
  apply andb_true_intro. split; apply truthy_Some; assumption.
Qed.

Lemma migrate_step_stored rnd rnd' d log u :
  (forall r, fst (generateKeyPairSync "rsa" rsa_options r) <> ""
             /\ snd (generateKeyPairSync "rsa" rsa_options r) <> "") ->
  d !! username u = Some u ->
  fst (migrate_step rnd rnd' (d, log)
         (project (select "+privateKey" (Query "" [])) u))
  = <[username u := with_keys rnd u]> d.
Proof.
  intros Hgen Hd. unfold migrate_step, with_keys.
  change (publicKey (project (select "+privateKey" (Query "" [])) u)) with (publicKey u).
  change (privateKey (project (select "+privateKey" (Query "" [])) u)) with (privateKey u).
  change (username (project (select "+privateKey" (Query "" [])) u)) with (username u).
  rewrite <- negb_andb.
  destruct (truthy (publicKey u) && truthy (privateKey u)) eqn:E; simpl.
  - symmetry. now apply insert_id.
  - destruct (generateKeyPairSync "rsa" rsa_options (rnd (username u)))
      as [pub priv] eqn:Eg.
    pose proof (Hgen (rnd (username u))) as [Hp Hk]. rewrite Eg in Hp, Hk.
    simpl in Hp, Hk. simpl.
    unfold save. rewrite pre_save_present by (simpl; now apply truthy_Some).
    change (username (set_keys pub priv
              (project (select "+privateKey" (Query "" [])) u))) with (username u).
    rewrite Hd. now rewrite written_set_keys.
Qed.

Lemma migrate_fold rnd rnd' (l : list (string * User)) :
  (forall r, fst (generateKeyPairSync "rsa" rsa_options r) <> ""
             /\ snd (generateKeyPairSync "rsa" rsa_options r) <> "") ->
  NoDup l.*1 ->
  forall d log,
    (forall k u, In (k, u) l -> d !! k = Some u /\ username u = k) ->
    fst (foldl (migrate_step rnd rnd') (d, log)
           ((fun kv => project (select "+privateKey" (Query "" [])) (snd kv)) <$> l))
    = (with_keys rnd <$> (list_to_map l : gmap string User)) ∪ d.
Proof.
  intros Hgen. induction l as [|[k u] l IH]; intros Hnd d log Hl.
  - simpl. rewrite fmap_empty. now rewrite (left_id_L ∅ (∪)).
  - rewrite fmap_cons in Hnd. apply NoDup_cons in Hnd as [Hk Hnd]. cbn [fst] in Hk.
    rewrite fmap_cons, list_to_map_cons. cbn [foldl snd].
    destruct (Hl k u (or_introl eq_refl)) as [Hdk Hname].
    destruct (migrate_step rnd rnd' (d, log)
                (project (select "+privateKey" (Query "" [])) u)) as [d1 log1] eqn:Estep.
    assert (Hd1 : d1 = <[k := with_keys rnd u]> d).
    { change d1 with (fst (d1, log1)). rewrite <- Estep.
      rewrite <- Hname. apply migrate_step_stored; [exact Hgen|now rewrite Hname]. }
    rewrite IH; [|exact Hnd|].
    + rewrite Hd1, fmap_insert.
      rewrite <- insert_union_l. symmetry. apply insert_union_r.
      rewrite lookup_fmap. now rewrite (not_elem_of_list_to_map_1 _ _ Hk).
    + intros k' u' Hin. destruct (Hl k' u' (or_intror Hin)) as [Hd' Hn']. split; [|exact Hn'].
      rewrite Hd1, lookup_insert_ne; [exact Hd'|].
      intros <-. apply Hk. apply list_elem_of_fmap. exists (k, u').
      split; [reflexivity|]. now apply list_elem_of_In.
Qed.

(** After [migrateKeys] every stored user has a public and a private key:
    a user that had both keeps them, every other user gets the pair
    generated for it, and nothing else of a user changes. Running the
    migration again changes nothing. *)
Theorem migrateKeys_gives_keys rnd rnd' r2 r2' db :
  (forall r, fst (generateKeyPairSync "rsa" rsa_options r) <> ""
             /\ snd (generateKeyPairSync "rsa" rsa_options r) <> "") ->
  keyed db ->
  fst (migrateKeys rnd rnd' db) = with_keys rnd <$> db
  /\ (forall k u, fst (migrateKeys rnd rnd' db) !! k = Some u ->
        truthy (publicKey u) && truthy (privateKey u) = true)
  /\ (forall k u, db !! k = Some u ->
        truthy (publicKey u) && truthy (privateKey u) = true ->
        fst (migrateKeys rnd rnd' db) !! k = Some u)
  /\ fst (migrateKeys r2 r2' (fst (migrateKeys rnd rnd' db)))
     = fst (migrateKeys rnd rnd' db).
Proof.
  intros Hgen Hkeyed.
  assert (Hrun : forall r r' m, keyed m -> fst (migrateKeys r r' m) = with_keys r <$> m).
  { intros r r' m Hm. unfold migrateKeys, find_all.
    rewrite (migrate_fold r r' (map_to_list m) Hgen (NoDup_fst_map_to_list m)).
    - rewrite list_to_map_to_list. apply map_eq. intros k.
      rewrite lookup_union, !lookup_fmap.
      now destruct (m !! k).
    - intros k u Hin. apply list_elem_of_In, elem_of_map_to_list in Hin.
      split; [exact Hin|now apply Hm]. }
  rewrite (Hrun rnd rnd' db Hkeyed). split; [reflexivity|]. split; [|split].
  - intros k u. rewrite lookup_fmap. destruct (db !! k) as [u0|]; [|discriminate].
    intros [= <-]. now apply with_keys_truthy.
  - intros k u Hu Hkeys. rewrite lookup_fmap, Hu. simpl. unfold with_keys.
    now rewrite Hkeys.
  - rewrite Hrun.
    + rewrite <- map_fmap_compose. apply map_fmap_ext. intros k u _. simpl.
      unfold with_keys at 1. now rewrite (with_keys_truthy rnd u Hgen).
    + intros k u. rewrite lookup_fmap. destruct (db !! k) as [u0|] eqn:E; [|discriminate].
      intros [= <-]. rewrite with_keys_username. now apply Hkeyed.
Qed.

(** Saving a new user that has no keys yet stores it with the pair that
    the hook generates. From then on the default read and the Actor
    document give the public key of that pair, the read with
    [+privateKey] gives its private key, and no other user is touched. *)
Theorem registration_keys BASE_URL rnd doc db :
  db !! username doc = None ->
  publicKey doc = None ->
  let pub := fst (generateKeyPairSync "rsa" rsa_options rnd) in
  let priv := snd (generateKeyPairSync "rsa" rsa_options rnd) in
  let db' := save rnd doc db in
  db' !! username doc = Some (set_keys pub priv doc)
  /\ exec db' (findOne (username doc)) ≫= publicKey = Some pub
  /\ exec db' (findOne (username doc)) ≫= privateKey = None
  /\ exec db' (select "+privateKey" (findOne (username doc))) ≫= privateKey = Some priv
  /\ (exists document,
        actor BASE_URL db' (username doc) = Ok document
        /\ JS.prop (JS.prop document "publicKey") "publicKeyPem" = VStr pub)
  /\ (forall other, other <> username doc -> db' !! other = db !! other).
Proof.
  intros Hnew Hpub pub priv db'.
  assert (Hdb' : db' = <[username doc := set_keys pub priv doc]> db).
  { unfold db', save. rewrite Hnew.
    rewrite pre_save_missing by (now rewrite Hpub). reflexivity. }
  assert (Hl : db' !! username doc = Some (set_keys pub priv doc))
    by (rewrite Hdb'; apply lookup_insert_eq).
  split; [exact Hl|]. unfold exec, actor, exec. simpl. rewrite Hl. simpl.
  repeat split.
  - eexists. split; reflexivity.
  - intros other Hne. rewrite Hdb'. now apply lookup_insert_ne.
Qed.

(** Without a stored private key for the sender (the user is unknown, or
    was created before keys existed) [sendSignedRequest] throws the error
    that names the user and sends nothing, whatever the inbox would have
    answered. *)
Theorem sendSignedRequest_without_key
    (maxRedirects : nat) (redirected : Z -> string -> http_request -> http_request)
    BASE_URL db now name inboxUrl activity (net : http_request -> answer) :
  db !! name ≫= privateKey = None \/ db !! name ≫= privateKey = Some "" ->
  sendSignedRequest maxRedirects redirected BASE_URL db now name inboxUrl activity net
  = (Throw ("Private key not found for user: " +:+ name), []).
Proof.
  intros Hkey. unfold sendSignedRequest, signed_request.
  rewrite exec_elevated_private. now destruct Hkey as [-> | ->].
Qed.

(** The Actor document of a stored user: its [publicKey.owner] is its
    [id], its [publicKey.id] is that [id] followed by [#main-key], and
    [publicKeyPem] is the stored public key. For a user that is not
    stored the handler throws a TypeError instead of answering. *)
Theorem actor_document BASE_URL db name u :
  db !! name = Some u ->
  (exists document,
     actor BASE_URL db name = Ok document
     /\ JS.prop document "id" = VStr (BASE_URL +:+ "/users/" +:+ name)
     /\ JS.prop document "preferredUsername" = VStr name
     /\ JS.prop (JS.prop document "publicKey") "owner" = JS.prop document "id"
     /\ JS.prop (JS.prop document "publicKey") "id" = VStr (keyId_of BASE_URL name)
     /\ strip_suffix "#main-key" (keyId_of BASE_URL name)
        = Some (BASE_URL +:+ "/users/" +:+ name)
     /\ JS.prop (JS.prop document "publicKey") "publicKeyPem" = opt_str (publicKey u))
  /\ (forall db', db' !! name = None ->
        actor BASE_URL db' name
        = Throw "TypeError: Cannot read properties of null (reading 'publicKey')").
Proof.
  intros Hu. split.
  - unfold actor, exec. simpl. rewrite Hu. simpl. eexists. split; [reflexivity|].
    repeat split. unfold keyId_of.
    replace (BASE_URL +:+ "/users/" +:+ name +:+ "#main-key")
      with ((BASE_URL +:+ "/users/" +:+ name) +:+ "#main-key")
      by (now rewrite !append_assoc).
    apply strip_suffix_app.
  - intros db' Hnone. unfold actor, exec. simpl. now rewrite Hnone.
Qed.

End MaintenanceFacts.

Section MaintenanceRuns.
Import Str KeyManagement Maintenance Samples MoreSamples.

Lemma legacy_db_keyed : keyed legacy_db.
Proof.
  intros k u. unfold legacy_db, db0.
  rewrite lookup_insert. case_decide as Hk.
  - intros [= <-]. now subst k.
  - rewrite lookup_singleton. case_decide as Hk'; [|discriminate].
    intros [= <-]. now subst k.
Qed.

Lemma migrateKeys_gives_keys_witness :
  fst (@migrateKeys Toy.primitives (fun _ => 11) (fun _ => 12) legacy_db)
  = @with_keys Toy.primitives (fun _ => 11) <$> legacy_db
  /\ (forall k u,
        fst (@migrateKeys Toy.primitives (fun _ => 11) (fun _ => 12) legacy_db) !! k = Some u ->
        truthy (publicKey u) && truthy (privateKey u) = true)
  /\ (forall k u, legacy_db !! k = Some u ->
        truthy (publicKey u) && truthy (privateKey u) = true ->
        fst (@migrateKeys Toy.primitives (fun _ => 11) (fun _ => 12) legacy_db) !! k = Some u)
  /\ fst (@migrateKeys Toy.primitives (fun _ => 13) (fun _ => 14)
            (fst (@migrateKeys Toy.primitives (fun _ => 11) (fun _ => 12) legacy_db)))
     = fst (@migrateKeys Toy.primitives (fun _ => 11) (fun _ => 12) legacy_db).
Proof.
  exact (@migrateKeys_gives_keys Toy.primitives (fun _ => 11) (fun _ => 12)
           (fun _ => 13) (fun _ => 14) legacy_db toy_keys_not_empty legacy_db_keyed).
Defined.

Lemma registration_keys_witness :
  let db' := @save Toy.primitives 21 (new_user BASE "dave") db0 in
  db' !! "dave" = Some (set_keys "PUB21" "KEY21" (new_user BASE "dave"))
  /\ exec db' (findOne "dave") ≫= publicKey = Some "PUB21"
  /\ exec db' (findOne "dave") ≫= privateKey = None
  /\ exec db' (select "+privateKey" (findOne "dave")) ≫= privateKey = Some "KEY21"
  /\ (exists document,
        @actor BASE db' "dave" = Ok document
        /\ JS.prop (JS.prop document "publicKey") "publicKeyPem" = VStr "PUB21")
  /\ (forall other, other <> "dave" -> db' !! other = db0 !! other).
Proof.
  apply (@registration_keys Toy.primitives BASE 21 (new_user BASE "dave") db0);
    reflexivity.
Defined.

Lemma sendSignedRequest_without_key_witness :
  @sendSignedRequest Toy.primitives 5 same_request_to BASE legacy_db t0 "carol" bob_inbox
    (follow (BASE +:+ "/users/carol") bob_uri) (answers (Answered 202 None))
  = (Throw "Private key not found for user: carol", []).
Proof.
  apply (@sendSignedRequest_without_key Toy.primitives 5 same_request_to BASE legacy_db
           t0 "carol" bob_inbox (follow (BASE +:+ "/users/carol") bob_uri)
           (answers (Answered 202 None))).
  left. reflexivity.
Defined.

Lemma actor_document_witness :
  (exists document,
     @actor BASE db0 "alice" = Ok document
     /\ JS.prop document "id" = VStr alice_uri
     /\ JS.prop document "preferredUsername" = VStr "alice"
     /\ JS.prop (JS.prop document "publicKey") "owner" = JS.prop document "id"
     /\ JS.prop (JS.prop document "publicKey") "id" = VStr (keyId_of BASE "alice")
     /\ strip_suffix "#main-key" (keyId_of BASE "alice") = Some alice_uri
     /\ JS.prop (JS.prop document "publicKey") "publicKeyPem" = VStr "PUB7")
  /\ (forall db', db' !! "alice" = None ->
        @actor BASE db' "alice"
        = Throw "TypeError: Cannot read properties of null (reading 'publicKey')").
Proof.
  apply (@actor_document BASE db0 "alice" alice). reflexivity.
Defined.

Lemma resave_regenerates_witness :
  @resave Toy.primitives 8 "alice" db0
  = <["alice" := set_keys "PUB8" "KEY8" alice]> db0.
Proof.
  apply (@resave_regenerates Toy.primitives 8 "alice" alice db0); reflexivity.
Defined.

Lemma migrate_user_idempotent_witness :
  @migrate_user Toy.primitives 13 14 "carol"
    (@migrate_user Toy.primitives 11 12 "carol" legacy_db)
  = @migrate_user Toy.primitives 11 12 "carol" legacy_db.
Proof.
  apply (@migrate_user_idempotent Toy.primitives 11 12 13 14 "carol"
           (new_user BASE "carol") legacy_db toy_keys_not_empty); reflexivity.
Defined.

End MaintenanceRuns.

(** ** Where the private key goes *)

Section KeyConfinement.
Import Str KeyManagement Spec Samples Maintenance.
Context `{Primitives}.

(** Each reader runs the query that the table gives for it. *)
Lemma readers_run_their_query BASE_URL rnd rnd' rs rs' name db db' now inboxUrl activity :
  (exec db' (query_of ActorEndpoint name) = exec db (query_of ActorEndpoint name) ->
   actor BASE_URL db' name = actor BASE_URL db name)
  /\ (exec db' (query_of Signer name) = exec db (query_of Signer name) ->
      signed_request BASE_URL db' now name inboxUrl activity
      = signed_request BASE_URL db now name inboxUrl activity)
  /\ (exec db (query_of KeyRepair name) = None -> migrate_user rnd rnd' name db = db)
  /\ (forall user, exec db (query_of KeyRepair name) = Some user ->
        truthy (publicKey user) && truthy (privateKey user) = true ->
        migrate_user rnd rnd' name db = db)
  /\ resave rnd name db
     = match exec db (query_of Resave name) with
       | Some user => save rnd user db
       | None => db
       end
  /\ migrateKeys rs rs' db
     = foldl (migrate_step rs rs') (db, []) (find_all db (query_of Migration name)).
Proof.
  split; [|split; [|split; [|split; [|split]]]].
  - intros E. unfold actor. cbn [query_of] in E. now rewrite E.
  - intros E. unfold signed_request. cbn [query_of] in E. now rewrite E.
  - intros E. unfold migrate_user. cbn [query_of] in E. now rewrite E.
  - intros user E [Hp Hk]%andb_prop. unfold migrate_user. cbn [query_of] in E.
    now rewrite E, Hp, Hk.
  - reflexivity.
  - reflexivity.
Qed.






End KeyConfinement.
